(** * SZE energy-management core: configuration store and status resolver

    A shallow embedding of [config_loader.py] and [sze_core.py].

    - JSON documents and the Python values built from them are one inductive
      type, [json]; Python's [None] is [JNull].
    - Python exceptions are values of [exn]; a computation that may raise
      returns an [outcome].
    - The module-level cache [_config_cache], the loggers and the attributes
      of the [SystemManager] instance form the [State]; the configuration
      files on disk and the clock form the [Env] of one call.  Effectful code
      lives in the monad [M]: the state survives a raised exception, as the
      heap does in Python. *)

From Stdlib Require Import String Ascii List ZArith QArith Bool Lia.
Import ListNotations.
Open Scope string_scope.
Open Scope Z_scope.

Set Warnings "-register-all".

(** ** Python values *)

Inductive json : Type :=
| JNull
| JBool (b : bool)
| JInt (z : Z)
| JFloat (q : Q)
| JStr (s : string)
| JList (l : list json)
| JDict (d : list (string * json)).

(** A [dict] with string keys, in insertion order; lookup takes the first
    binding of a key. *)
Definition pydict : Type := list (string * json).

(** [bool(v)]: what [if v:] tests. *)
Definition truthy (v : json) : bool :=
  match v with
  | JNull => false
  | JBool b => b
  | JInt z => negb (z =? 0)
  | JFloat q => negb (Qnum q =? 0)
  | JStr s => negb (String.eqb s "")
  | JList l => match l with [] => false | _ :: _ => true end
  | JDict d => match d with [] => false | _ :: _ => true end
  end.

(** [v is not None]. *)
Definition is_not_none (v : json) : bool :=
  match v with JNull => false | _ => true end.

Fixpoint dict_get (d : pydict) (k : string) : option json :=
  match d with
  | [] => None
  | (k', v) :: d' => if String.eqb k' k then Some v else dict_get d' k
  end.

(** [d.get(k, dflt)] on a value known to be a dict. *)
Definition dict_get_default (d : pydict) (k : string) (dflt : json) : json :=
  match dict_get d k with Some v => v | None => dflt end.

(** [list(d.keys())]. *)
Definition dict_keys (d : pydict) : list string := map fst d.

(** ** Exceptions *)

Inductive exn : Type :=
| AttributeError (attr : string)
| TypeError
| ValueError
| IndexError.

Inductive outcome (A : Type) : Type :=
| Ok (a : A)
| Raise (e : exn).
Arguments Ok {A} a.
Arguments Raise {A} e.

(** [v.get(k, dflt)] on an arbitrary value: only a dict has [get]. *)
Definition py_get (v : json) (k : string) (dflt : json) : outcome json :=
  match v with
  | JDict d => Ok (dict_get_default d k dflt)
  | _ => Raise (AttributeError "get")
  end.

(** [e == x] for a string [x]: a string equals only an equal string. *)
Definition eq_str (x : string) (e : json) : bool :=
  match e with JStr s => String.eqb s x | _ => false end.

(** [x in c] for a string [x]: membership in a list, key of a dict,
    substring of a string; other values are not iterable. *)
Definition py_in (x : string) (c : json) : outcome bool :=
  match c with
  | JList l => Ok (existsb (eq_str x) l)
  | JDict d => Ok (existsb (fun kv => String.eqb (fst kv) x) d)
  | JStr s => Ok (match index 0 x s with Some _ => true | None => false end)
  | _ => Raise TypeError
  end.

(** ** [datetime] *)

Record datetime : Type := mk_datetime {
  year : Z; month : Z; day : Z;
  hour : Z; minute : Z; second : Z; microsecond : Z }.

Definition is_leap (y : Z) : bool :=
  (y mod 4 =? 0) && (negb (y mod 100 =? 0) || (y mod 400 =? 0)).

Definition days_before_year (y : Z) : Z :=
  let y1 := y - 1 in y1 * 365 + y1 / 4 - y1 / 100 + y1 / 400.

Definition days_before_month (y m : Z) : Z :=
  nth (Z.to_nat m) [0; 0; 31; 59; 90; 120; 151; 181; 212; 243; 273; 304; 334] 0
  + (if (2 <? m) && is_leap y then 1 else 0).

Definition toordinal (dt : datetime) : Z :=
  days_before_year (year dt) + days_before_month (year dt) (month dt) + day dt.

(** [dt.weekday()]: Monday is 0, Sunday is 6. *)
Definition weekday (dt : datetime) : Z := (toordinal dt + 6) mod 7.

Definition digit (d : Z) : ascii := ascii_of_nat (48 + Z.to_nat (d mod 10)).

Definition pad2 (n : Z) : string :=
  String (digit (n / 10)) (String (digit n) "").

Definition pad4 (n : Z) : string := pad2 (n / 100) ++ pad2 n.

Definition pad6 (n : Z) : string := pad2 (n / 10000) ++ pad4 n.

(** [dt.strftime("%m-%d")]. *)
Definition strftime_md (dt : datetime) : string :=
  pad2 (month dt) ++ "-" ++ pad2 (day dt).

(** [dt.strftime("%Y-%m-%d")], the year on four digits (for years below
    1000 some C libraries print fewer; no property below depends on the
    digits of the year). *)
Definition strftime_Ymd (dt : datetime) : string :=
  pad4 (year dt) ++ "-" ++ strftime_md dt.

(** [dt.strftime("%H:%M:%S")]. *)
Definition strftime_HMS (dt : datetime) : string :=
  pad2 (hour dt) ++ ":" ++ pad2 (minute dt) ++ ":" ++ pad2 (second dt).

(** [dt.isoformat()]: the fraction is printed only when it is not zero. *)
Definition isoformat (dt : datetime) : string :=
  strftime_Ymd dt ++ "T" ++ strftime_HMS dt
  ++ (if microsecond dt =? 0 then "" else "." ++ pad6 (microsecond dt)).

(** ** Logging

    A record is a level and a message; a message is the template of the
    source line that emits it together with the values interpolated in it. *)

Inductive level : Type := ERROR | WARNING | INFO | DEBUG.

Inductive message : Type :=
| MsgFileMissing (filename : string)        (* config_loader.py:30 *)
| MsgFileLoaded (filename : string)         (* config_loader.py:36 *)
| MsgJsonError (filename : string)          (* config_loader.py:39 *)
| MsgUnexpectedError (filename : string)    (* config_loader.py:42 *)
| MsgReloading                              (* config_loader.py:50 *)
| MsgNotLoaded (filename : string)          (* config_loader.py:69,76,83,90 *)
| MsgLoadedFiles (loaded : list string)     (* config_loader.py:94 *)
| MsgLoaderInit                             (* config_loader.py:155 *)
| MsgSystemInit                             (* sze_core.py:36 *)
| MsgProfilesFor (keys : list string)       (* sze_core.py:53 *)
| MsgConfigDataError (e : exn)              (* sze_core.py:56 *)
| MsgBadNightTariff (cheaper_night : json)  (* sze_core.py:167 *)
| MsgRefreshed                              (* sze_core.py:176 *)
| MsgBoilerOn                               (* sze_core.py:207 *)
| MsgBoilerOff.                             (* sze_core.py:209 *)

Definition log_record : Type := (level * message)%type.

(** ** State and environment *)

(** The module-level dict [_config_cache]: five fixed keys. *)
Record ConfigCache : Type := mk_cache {
  energy_profiles : json;
  cwu_schedule : json;
  system_config : json;
  user_corrections : json;
  last_load_time : json }.

(** The attributes of the [SystemManager] instance.  The two flags are
    assigned last in [__init__]: [None] is an attribute not yet set. *)
Record Manager : Type := mk_manager {
  system_status : pydict;
  config_data : pydict;
  last_update : option datetime;
  cwu_boiler_enabled : option bool;
  heaters_locked : option bool }.

Record State : Type := mk_state {
  _config_cache : ConfigCache;
  log : list log_record;
  self : Manager }.

(** What [_load_json_file] finds on disk for a file name. *)
Inductive file_state : Type :=
| Missing                 (* os.path.exists is false *)
| Malformed               (* json.load raises JSONDecodeError *)
| Unreadable              (* open or read raises another exception *)
| Content (data : json).  (* json.load returns data *)

(** The world outside the process during one call: the configuration
    directory and the reading of the clock.  Within one call the files and
    the clock are taken as of one instant; between calls they may change. *)
Record Env : Type := mk_env {
  files : string -> file_state;
  clock : datetime }.

(** ** The monad *)

Definition M (A : Type) : Type := Env -> State -> outcome A * State.

Definition ret {A} (a : A) : M A := fun _ s => (Ok a, s).

Definition bind {A B} (c : M A) (k : A -> M B) : M B :=
  fun env s =>
    match c env s with
    | (Ok a, s') => k a env s'
    | (Raise e, s') => (Raise e, s')
    end.

Definition raise {A} (e : exn) : M A := fun _ s => (Raise e, s).

Definition lift {A} (o : outcome A) : M A := fun _ s => (o, s).

(** [try: body except Exception as e: handler e]. *)
Definition try_except {A} (body : M A) (handler : exn -> M A) : M A :=
  fun env s =>
    match body env s with
    | (Ok a, s') => (Ok a, s')
    | (Raise e, s') => handler e env s'
    end.

Declare Scope py_scope.
Delimit Scope py_scope with py.
Notation "x <- c ;; k" := (bind c (fun x => k))
  (at level 61, c at next level, right associativity) : py_scope.
Notation "c ;; k" := (bind c (fun _ => k))
  (at level 61, right associativity) : py_scope.
Open Scope py_scope.

Definition read_cache : M ConfigCache := fun _ s => (Ok (_config_cache s), s).

Definition write_cache (f : ConfigCache -> ConfigCache) : M unit :=
  fun _ s => (Ok tt, mk_state (f (_config_cache s)) (log s) (self s)).

Definition read_self : M Manager := fun _ s => (Ok (self s), s).

Definition write_self (f : Manager -> Manager) : M unit :=
  fun _ s => (Ok tt, mk_state (_config_cache s) (log s) (f (self s))).

Definition emit (l : level) (m : message) : M unit :=
  fun _ s => (Ok tt, mk_state (_config_cache s) (log s ++ [(l, m)])%list (self s)).

Definition read_file (filename : string) : M file_state :=
  fun env s => (Ok (files env filename), s).

(** [datetime.now()]. *)
Definition datetime_now : M datetime := fun env s => (Ok (clock env), s).

(** ** config_loader.py *)

Module ConfigLoader.

Definition set_energy_profiles (v : json) (c : ConfigCache) : ConfigCache :=
  mk_cache v (cwu_schedule c) (system_config c) (user_corrections c) (last_load_time c).
Definition set_cwu_schedule (v : json) (c : ConfigCache) : ConfigCache :=
  mk_cache (energy_profiles c) v (system_config c) (user_corrections c) (last_load_time c).
Definition set_system_config (v : json) (c : ConfigCache) : ConfigCache :=
  mk_cache (energy_profiles c) (cwu_schedule c) v (user_corrections c) (last_load_time c).
Definition set_user_corrections (v : json) (c : ConfigCache) : ConfigCache :=
  mk_cache (energy_profiles c) (cwu_schedule c) (system_config c) v (last_load_time c).
Definition set_last_load_time (v : json) (c : ConfigCache) : ConfigCache :=
  mk_cache (energy_profiles c) (cwu_schedule c) (system_config c) (user_corrections c) v.

(** The cache as the module defines it, before any load. *)
Definition initial_cache : ConfigCache := mk_cache JNull JNull JNull JNull JNull.

Definition _load_json_file (filename : string) : M json :=
  f <- read_file filename ;;
  match f with
  | Missing => emit ERROR (MsgFileMissing filename) ;; ret JNull
  | Content data => emit INFO (MsgFileLoaded filename) ;; ret data
  | Malformed => emit ERROR (MsgJsonError filename) ;; ret JNull
  | Unreadable => emit ERROR (MsgUnexpectedError filename) ;; ret JNull
  end.

(** One of the four [if data: ... else: ...] blocks of [reload_all_configs];
    [acc] is the pair of locals [(success, loaded_files)]. *)
Definition store_if_loaded (data : json) (set : json -> ConfigCache -> ConfigCache)
    (filename : string) (acc : bool * list string) : M (bool * list string) :=
  if truthy data then
    write_cache (set data) ;;
    ret (fst acc, (snd acc ++ [filename])%list)
  else
    emit WARNING (MsgNotLoaded filename) ;;
    ret (false, snd acc).

Definition reload_all_configs : M bool :=
  emit INFO MsgReloading ;;
  energy_data <- _load_json_file "energy_profiles.json" ;;
  cwu_data <- _load_json_file "cwu_schedule.json" ;;
  system_data <- _load_json_file "system_config.json" ;;
  corrections_data <- _load_json_file "user_corrections.json" ;;
  acc <- store_if_loaded energy_data set_energy_profiles "energy_profiles.json" (true, []) ;;
  acc <- store_if_loaded cwu_data set_cwu_schedule "cwu_schedule.json" acc ;;
  acc <- store_if_loaded system_data set_system_config "system_config.json" acc ;;
  acc <- store_if_loaded corrections_data set_user_corrections "user_corrections.json" acc ;;
  match snd acc with
  | _ :: _ =>
      t <- datetime_now ;;
      write_cache (set_last_load_time (JStr (isoformat t))) ;;
      emit INFO (MsgLoadedFiles (snd acc))
  | [] => ret tt
  end ;;
  ret (fst acc).

(** [if not _config_cache[key]: reload_all_configs()]. *)
Definition reload_if_empty (slot : ConfigCache -> json) : M unit :=
  c <- read_cache ;;
  if negb (truthy (slot c)) then reload_all_configs ;; ret tt else ret tt.

(** [day_type] is [None] when the argument is left out. *)
Definition get_energy_profiles (day_type : option string) : M json :=
  reload_if_empty energy_profiles ;;
  c <- read_cache ;;
  let data := energy_profiles c in
  if negb (truthy data) then ret JNull
  else
    match day_type with
    | Some k =>
        if String.eqb k "" then ret data
        else
          profiles <- lift (py_get data "energy_profiles" (JDict [])) ;;
          lift (py_get profiles k JNull)
    | None => ret data
    end.

Definition get_cwu_schedule : M json :=
  reload_if_empty cwu_schedule ;;
  c <- read_cache ;;
  ret (cwu_schedule c).

Definition get_system_config : M json :=
  reload_if_empty system_config ;;
  c <- read_cache ;;
  ret (system_config c).

Definition get_user_corrections : M json :=
  reload_if_empty user_corrections ;;
  c <- read_cache ;;
  ret (user_corrections c).

Definition get_config_status : M json :=
  c <- read_cache ;;
  ret (JDict
    [ ("last_load_time", last_load_time c);
      ("files_loaded", JDict
        [ ("energy_profiles", JBool (is_not_none (energy_profiles c)));
          ("cwu_schedule", JBool (is_not_none (cwu_schedule c)));
          ("system_config", JBool (is_not_none (system_config c)));
          ("user_corrections", JBool (is_not_none (user_corrections c))) ]) ]).

(** Module body, run at import: lines 153-156. *)
Definition module_import : M unit :=
  emit INFO MsgLoaderInit ;;
  reload_all_configs ;;
  ret tt.

End ConfigLoader.

(** ** sze_core.py *)

Module SzeCore.
Import ConfigLoader.

Definition set_system_status (v : pydict) (m : Manager) : Manager :=
  mk_manager v (config_data m) (last_update m) (cwu_boiler_enabled m) (heaters_locked m).
Definition set_config_data (v : pydict) (m : Manager) : Manager :=
  mk_manager (system_status m) v (last_update m) (cwu_boiler_enabled m) (heaters_locked m).
Definition set_last_update (v : option datetime) (m : Manager) : Manager :=
  mk_manager (system_status m) (config_data m) v (cwu_boiler_enabled m) (heaters_locked m).
Definition set_cwu_boiler_enabled (v : option bool) (m : Manager) : Manager :=
  mk_manager (system_status m) (config_data m) (last_update m) v (heaters_locked m).
Definition set_heaters_locked (v : option bool) (m : Manager) : Manager :=
  mk_manager (system_status m) (config_data m) (last_update m) (cwu_boiler_enabled m) v.

(** [list(v.keys())] on an arbitrary value: only a dict has [keys]. *)
Definition py_keys (v : json) : outcome (list string) :=
  match v with
  | JDict d => Ok (dict_keys d)
  | _ => Raise (AttributeError "keys")
  end.

(** [v.get(k, dflt) if v else {}]. *)
Definition get_if_truthy (v : json) (k : string) : M json :=
  if truthy v then lift (py_get v k (JDict [])) else ret (JDict []).

Definition _load_config_data : M unit :=
  try_except
    ( ep <- get_energy_profiles None ;;
      cs <- get_cwu_schedule ;;
      sc <- get_system_config ;;
      uc <- get_user_corrections ;;
      st <- get_config_status ;;
      write_self (set_config_data
        [ ("energy_profiles", ep); ("cwu_schedule", cs); ("system_config", sc);
          ("user_corrections", uc); ("config_status", st) ]) ;;
      me <- read_self ;;
      let energy_profiles := dict_get_default (config_data me) "energy_profiles" (JDict []) in
      if truthy energy_profiles then
        profiles <- lift (py_get energy_profiles "energy_profiles" (JDict [])) ;;
        keys <- lift (py_keys profiles) ;;
        emit INFO (MsgProfilesFor keys)
      else ret tt )
    (fun e =>
      emit ERROR (MsgConfigDataError e) ;;
      write_self (set_config_data [])).

(** Lines 113-118: the classification by day of the week. *)
Definition weekday_type (dt : datetime) : string :=
  if weekday dt <? 5 then "roboczy"
  else if weekday dt =? 5 then "sobota"
  else "niedziela/święto".

(** Lines 99-118.  The statements that follow line 118 in the body of this
    function (the nested [def]s of lines 120 and 139 and the statements of
    lines 145-170) come after a [return] on every path and are never run;
    none of them is embedded. *)
Definition _get_day_type (dt : datetime) : M string :=
  me <- read_self ;;
  let system_config := dict_get_default (config_data me) "system_config" (JDict []) in
  calendar_config <- get_if_truthy system_config "calendar" ;;
  fixed_holidays <- lift (py_get calendar_config "fixed_holidays" (JList [])) ;;
  movable_holidays <- lift (py_get calendar_config "movable_holidays" (JList [])) ;;
  let today_str := strftime_md dt in
  let today_full := strftime_Ymd dt in
  in_fixed <- lift (py_in today_str fixed_holidays) ;;
  is_holiday <- (if in_fixed then ret true else lift (py_in today_full movable_holidays)) ;;
  if is_holiday then ret "niedziela/święto"
  else ret (weekday_type dt).

(** The names bound in the body of [class SystemManager] to a function of
    [(self, dt)].  The class body binds [__init__], [_load_config_data],
    [_update_system_status], [_get_day_type], [refresh_data],
    [get_system_info], [get_config_data], [calculate_balance] and
    [toggle_cwu_boiler].  The [def _get_current_window] of line 120 and the
    [def _get_current_tariff] of line 139 are indented one level deeper:
    they are statements of the body of [_get_day_type], placed after its
    last [return], and bind no attribute of the class. *)
Definition SystemManager_dt_methods : list (string * (datetime -> M string)) :=
  [ ("_get_day_type", _get_day_type) ].

(** [self.name(dt)]: the instance has no attribute of these names, so the
    lookup goes to the class. *)
Definition call_self (name : string) (dt : datetime) : M string :=
  match find (fun m => String.eqb (fst m) name) SystemManager_dt_methods with
  | Some m => snd m dt
  | None => raise (AttributeError name)
  end.

Definition polish_weekday (w : Z) : string :=
  nth (Z.to_nat w)
    ["poniedziałek"; "wtorek"; "środa"; "czwartek"; "piątek"; "sobota"; "niedziela"] "".

Definition month_name (m : Z) : string :=
  nth (Z.to_nat m)
    [""; "January"; "February"; "March"; "April"; "May"; "June"; "July";
     "August"; "September"; "October"; "November"; "December"] "".

(** [now.strftime("%A %d %B %Y")] with the English day name replaced. *)
Definition data_str (dt : datetime) : string :=
  polish_weekday (weekday dt) ++ " " ++ pad2 (day dt) ++ " "
  ++ month_name (month dt) ++ " " ++ pad4 (year dt).

(** The dict display of lines 68-92, from the values of its entries that
    are computed by calls. *)
Definition status_dict (dt : datetime) (rodzaj_dnia okno_dobowe taryfa : string)
    (cfg : pydict) (profiles_available : list string) (morning evening : json) : pydict :=
  [ ("timestamp", JStr (isoformat dt));
    ("data_str", JStr (data_str dt));
    ("godzina", JStr (strftime_HMS dt));
    ("rodzaj_dnia", JStr rodzaj_dnia);
    ("okno_dobowe", JStr okno_dobowe);
    ("taryfa", JStr taryfa);
    ("cwz_z_kotla", JStr "WŁ");
    ("grzalki_zablokowane", JStr "TAK");
    ("system_active", JBool true);
    ("last_update", JStr (strftime_HMS dt));
    ("config_loaded", JBool (truthy (dict_get_default cfg "energy_profiles" JNull)));
    ("profiles_available", JList (map JStr profiles_available));
    ("boiler_morning_power_w", morning);
    ("boiler_evening_power_w", evening) ].

Definition _update_system_status : M unit :=
  now <- datetime_now ;;
  me <- read_self ;;
  let system_config := dict_get_default (config_data me) "system_config" (JDict []) in
  boiler_config <- get_if_truthy system_config "boiler" ;;
  default_power <- get_if_truthy boiler_config "default_total_power" ;;
  rodzaj_dnia <- call_self "_get_day_type" now ;;
  okno_dobowe <- call_self "_get_current_window" now ;;
  taryfa <- call_self "_get_current_tariff" now ;;
  profiles_available <-
    (if truthy (dict_get_default (config_data me) "energy_profiles" JNull) then
       profiles <- lift (py_get (dict_get_default (config_data me) "energy_profiles" (JDict []))
                          "energy_profiles" (JDict [])) ;;
       lift (py_keys profiles)
     else ret []) ;;
  morning <- lift (py_get default_power "morning_watts" (JInt 0)) ;;
  evening <- lift (py_get default_power "evening_watts" (JInt 0)) ;;
  write_self (set_system_status
    (status_dict now rodzaj_dnia okno_dobowe taryfa (config_data me)
       profiles_available morning evening)) ;;
  write_self (set_last_update (Some now)).

Definition refresh_data : M unit :=
  _load_config_data ;;
  _update_system_status ;;
  emit DEBUG MsgRefreshed.

Definition get_system_info : M pydict :=
  me <- read_self ;; ret (system_status me).

Definition get_config_data : M pydict :=
  me <- read_self ;; ret (config_data me).

Definition toggle_cwu_boiler (enabled : bool) : M pydict :=
  write_self (set_cwu_boiler_enabled (Some enabled)) ;;
  (if enabled then
     write_self (set_heaters_locked (Some true)) ;;
     emit INFO MsgBoilerOn
   else
     emit WARNING MsgBoilerOff) ;;
  _update_system_status ;;
  ret [ ("status", JStr "success");
        ("cwz_z_kotla", JStr (if enabled then "WŁ" else "WYŁ")) ].

(** [SystemManager()]: lines 27-29 give the new object its first three
    attributes; the two flags do not exist before lines 34-35. *)
Definition __init__ : M unit :=
  write_self (fun _ => mk_manager [] [] None None None) ;;
  _load_config_data ;;
  _update_system_status ;;
  write_self (set_cwu_boiler_enabled (Some true)) ;;
  write_self (set_heaters_locked (Some true)) ;;
  emit INFO MsgSystemInit.

End SzeCore.

(** * Vocabulary of the properties *)

Import ConfigLoader SzeCore.

(** The four documents, with the file, the cache slot and the accessor of
    each. *)
Inductive Doc : Type := EnergyProfiles | CwuSchedule | SystemConfig | UserCorrections.

Definition filename (d : Doc) : string :=
  match d with
  | EnergyProfiles => "energy_profiles.json"
  | CwuSchedule => "cwu_schedule.json"
  | SystemConfig => "system_config.json"
  | UserCorrections => "user_corrections.json"
  end.

Definition slot (d : Doc) : ConfigCache -> json :=
  match d with
  | EnergyProfiles => energy_profiles
  | CwuSchedule => cwu_schedule
  | SystemConfig => system_config
  | UserCorrections => user_corrections
  end.

Definition accessor (d : Doc) : M json :=
  match d with
  | EnergyProfiles => get_energy_profiles None
  | CwuSchedule => get_cwu_schedule
  | SystemConfig => get_system_config
  | UserCorrections => get_user_corrections
  end.

(** The source of a document is readable and parses: [_load_json_file]
    takes neither its early [return None] nor one of its [except] branches. *)
Definition loads_without_error (env : Env) (d : Doc) : Prop :=
  exists data, files env (filename d) = Content data.

(** What [_load_json_file] returns for a file in a given state. *)
Definition loaded_data (f : file_state) : json :=
  match f with Content data => data | _ => JNull end.

Definition doc_data (env : Env) (d : Doc) : json :=
  loaded_data (files env (filename d)).

Definition load_record (name : string) (f : file_state) : log_record :=
  match f with
  | Missing => (ERROR, MsgFileMissing name)
  | Malformed => (ERROR, MsgJsonError name)
  | Unreadable => (ERROR, MsgUnexpectedError name)
  | Content _ => (INFO, MsgFileLoaded name)
  end.

(** A slot after a reload: the new data when it is truthy, the old value
    otherwise. *)
Definition merged (data old : json) : json := if truthy data then data else old.

Definition some_truthy (env : Env) : bool :=
  truthy (doc_data env EnergyProfiles) || truthy (doc_data env CwuSchedule)
  || truthy (doc_data env SystemConfig) || truthy (doc_data env UserCorrections).

Definition all_truthy (env : Env) : bool :=
  truthy (doc_data env EnergyProfiles) && truthy (doc_data env CwuSchedule)
  && truthy (doc_data env SystemConfig) && truthy (doc_data env UserCorrections).

Definition reloaded_cache (env : Env) (c : ConfigCache) : ConfigCache :=
  mk_cache
    (merged (doc_data env EnergyProfiles) (energy_profiles c))
    (merged (doc_data env CwuSchedule) (cwu_schedule c))
    (merged (doc_data env SystemConfig) (system_config c))
    (merged (doc_data env UserCorrections) (user_corrections c))
    (if some_truthy env then JStr (isoformat (clock env)) else last_load_time c).

(** The state after one call of [reload_all_configs], and after a sequence
    of calls, each in the environment it finds. *)
Definition after_reload (env : Env) (s : State) : State :=
  snd (reload_all_configs env s).

Definition after_reloads (envs : list Env) (s : State) : State :=
  fold_left (fun s env => after_reload env s) envs s.

(** The state of the process before the first load. *)
Definition state_at_start : State :=
  mk_state initial_cache [] (mk_manager [] [] None None None).

(** ** Sample inputs *)

Definition sample_time : datetime := mk_datetime 2024 1 2 23 0 0 0.

Definition sample_doc : json := JDict [("k", JInt 1)].

Definition changed_doc : json := JDict [("k", JInt 2)].

(** Every file holds a non-empty object, except [cwu_schedule.json], which
    holds the empty object. *)
Definition env_empty_schedule : Env :=
  mk_env (fun name => if String.eqb name "cwu_schedule.json"
                      then Content (JDict []) else Content sample_doc)
         sample_time.

(** Every file holds the empty object. *)
Definition env_all_empty : Env := mk_env (fun _ => Content (JDict [])) sample_time.

(** Every file holds a non-empty object. *)
Definition env_all_present : Env := mk_env (fun _ => Content sample_doc) sample_time.

(** The process right after the import of [config_loader] has loaded the
    four files of [env_all_present]. *)
Definition state_after_import : State :=
  snd (module_import env_all_present state_at_start).

(** Every file holds an object that differs from [sample_doc]. *)
Definition env_all_changed : Env := mk_env (fun _ => Content changed_doc) sample_time.

(** No file exists. *)
Definition env_no_files : Env := mk_env (fun _ => Missing) sample_time.

(** A cache in which every document was loaded earlier. *)
Definition state_all_cached : State :=
  mk_state (mk_cache sample_doc sample_doc sample_doc sample_doc (JStr "2024-01-01T00:00:00"))
           [] (mk_manager [] [] None None None).

(** ** Vocabulary of the resolver *)

(** The [calendar] section is absent: [system_config] is missing from the
    manager's view, or is falsy ([None], the empty object), or is an object
    without the key [calendar]. *)
Definition calendar_absent (cfg : pydict) : Prop :=
  match dict_get cfg "system_config" with
  | None => True
  | Some (JDict sc) => dict_get sc "calendar" = None
  | Some v => truthy v = false
  end.

(** A computation that leaves the state as it found it. *)
Definition reads_only {A} (c : M A) : Prop :=
  forall env s, snd (c env s) = s.

(** A computation that raises in every environment and state, and leaves
    the state as it found it. *)
Definition always_raises {A} (c : M A) : Prop :=
  forall env s, exists e, c env s = (Raise e, s).

(** Two managers that differ at most in [config_data]. *)
Definition same_but_config (m m' : Manager) : Prop :=
  system_status m' = system_status m
  /\ last_update m' = last_update m
  /\ cwu_boiler_enabled m' = cwu_boiler_enabled m
  /\ heaters_locked m' = heaters_locked m.

(** A computation that assigns no attribute of the manager other than
    [config_data]. *)
Definition keeps_manager {A} (c : M A) : Prop :=
  forall env s, same_but_config (self s) (self (snd (c env s))).

(** The state in which [toggle_cwu_boiler] calls [_update_system_status]:
    lines 204-209 have assigned the flags and logged one record. *)
Definition toggled (enabled : bool) (s : State) : State :=
  mk_state (_config_cache s)
    (log s ++ [if enabled then (INFO, MsgBoilerOn) else (WARNING, MsgBoilerOff)])
    (mk_manager (system_status (self s)) (config_data (self s)) (last_update (self s))
       (Some enabled) (if enabled then Some true else heaters_locked (self s))).

(** A manager's view in which [cheaper_night_hours] has the given value. *)
Definition config_with_night_hours (v : json) : pydict :=
  [ ("system_config", JDict [ ("tariff_g12w", JDict [ ("cheaper_night_hours", v) ]) ]) ].

(** A manager's view with a calendar: New Year's Day fixed, Easter Monday
    of 2024 movable. *)
Definition config_with_calendar : pydict :=
  [ ("system_config", JDict
      [ ("calendar", JDict
          [ ("fixed_holidays", JList [JStr "01-01"; JStr "12-25"]);
            ("movable_holidays", JList [JStr "2024-04-01"]) ]) ]) ].

Definition state_with_config (cfg : pydict) : State :=
  mk_state initial_cache [] (mk_manager [] cfg None (Some true) (Some true)).

(** A manager whose heaters were unlocked by other means. *)
Definition state_unlocked : State :=
  mk_state initial_cache [] (mk_manager [] [] None (Some false) (Some false)).

(** Tuesday 2 January 2024, at the given hour. *)
Definition tuesday_at (h : Z) : datetime := mk_datetime 2024 1 2 h 0 0 0.

(** ** Vocabulary of the further properties *)

Definition all_docs : list Doc := [EnergyProfiles; CwuSchedule; SystemConfig; UserCorrections].

(** The key of a document in [_config_cache] and in [files_loaded]. *)
Definition cache_key (d : Doc) : string :=
  match d with
  | EnergyProfiles => "energy_profiles"
  | CwuSchedule => "cwu_schedule"
  | SystemConfig => "system_config"
  | UserCorrections => "user_corrections"
  end.

(** The local [loaded_files] at line 92. *)
Definition loaded_files (env : Env) : list string :=
  map filename (filter (fun d => truthy (doc_data env d)) all_docs).

(** The records one call of [reload_all_configs] appends to the log. *)
Definition reload_records (env : Env) : list log_record :=
  ((INFO, MsgReloading)
   :: map (fun d => load_record (filename d) (files env (filename d))) all_docs)
  ++ map (fun d => (WARNING, MsgNotLoaded (filename d)))
         (filter (fun d => negb (truthy (doc_data env d))) all_docs)
  ++ match loaded_files env with
     | [] => []
     | l => [(INFO, MsgLoadedFiles l)]
     end.

(** A slot is [None] or holds a truthy value. *)
Definition slot_ok (v : json) : Prop := v = JNull \/ truthy v = true.

(** The shape of the cache: every slot is [None] or truthy, and
    [last_load_time] is [None] exactly when all four slots are. *)
Definition cache_ok (c : ConfigCache) : Prop :=
  (forall d, slot_ok (slot d c))
  /\ (last_load_time c = JNull <-> forall d, slot d c = JNull).

Definition all_cached (c : ConfigCache) : bool :=
  forallb (fun d => truthy (slot d c)) all_docs.

(** The keys of the manager's view, in the order of lines 41-47. *)
Definition view_keys : list string :=
  ["energy_profiles"; "cwu_schedule"; "system_config"; "user_corrections"; "config_status"].

(** The state after a sequence of calls of [toggle_cwu_boiler], each with
    its argument and in the environment it finds. *)
Definition after_toggles (calls : list (bool * Env)) (s : State) : State :=
  fold_left (fun s c => snd (toggle_cwu_boiler (fst c) (snd c) s)) calls s.

(** A value is an object. *)
Definition is_dict (v : json) : bool :=
  match v with JDict _ => true | _ => false end.

(** A value can stand on the right of [in]. *)
Definition is_iterable (v : json) : bool :=
  match v with JList _ | JDict _ | JStr _ => true | _ => false end.

(** The state in which an accessor returns: the state it found when its
    slot is truthy, the state after a reload otherwise. *)
Definition served (d : Doc) (env : Env) (s : State) : State :=
  if truthy (slot d (_config_cache s)) then s else after_reload env s.

(** The energy-profiles document is an object whose [energy_profiles]
    entry, when present, is an object too: lines 52-53 can read its keys. *)
Definition profiles_section_ok (v : json) : bool :=
  match v with
  | JDict doc =>
      match dict_get doc "energy_profiles" with
      | None => true
      | Some x => is_dict x
      end
  | _ => false
  end.

(** ** Further sample inputs *)

Definition sample_profiles : json :=
  JDict [ ("energy_profiles", JDict
            [ ("dzien_roboczy", JDict [("h", JInt 1)]);
              ("sobota", JDict [("h", JInt 2)]) ]) ].

Definition state_with_profiles (v : json) : State :=
  mk_state (mk_cache v sample_doc sample_doc sample_doc (JStr "2024-01-01T00:00:00"))
           [] (mk_manager [] [] None None None).

(** * Properties of the configuration store *)

Lemma load_json_file_eq (name : string) (env : Env) (s : State) :
  _load_json_file name env s =
  (Ok (loaded_data (files env name)),
   mk_state (_config_cache s) (log s ++ [load_record name (files env name)]) (self s)).
Proof.
  unfold _load_json_file, bind, read_file.
  destruct (files env name); reflexivity.
Qed.

(** [reload_all_configs] always returns; its result and its effect on the
    cache are functions of the four values read. *)
Lemma reload_all_configs_eq (env : Env) (s : State) :
  exists l,
    reload_all_configs env s =
    (Ok (all_truthy env),
     mk_state (reloaded_cache env (_config_cache s)) (log s ++ (INFO, MsgReloading) :: l) (self s)).
Proof.
  destruct s as [[e0 c0 sc0 u0 t0] l0 m0].
  unfold reload_all_configs, bind at 1. unfold emit at 1.
  unfold bind at 1. rewrite load_json_file_eq.
  unfold bind at 1. rewrite load_json_file_eq.
  unfold bind at 1. rewrite load_json_file_eq.
  unfold bind at 1. rewrite load_json_file_eq.
  unfold reloaded_cache, all_truthy, some_truthy, merged, doc_data. simpl filename.
  generalize (loaded_data (files env "energy_profiles.json")); intro e.
  generalize (loaded_data (files env "cwu_schedule.json")); intro c.
  generalize (loaded_data (files env "system_config.json")); intro sc.
  generalize (loaded_data (files env "user_corrections.json")); intro u.
  unfold store_if_loaded, bind, write_cache, emit, ret, datetime_now. simpl.
  destruct (truthy e), (truthy c), (truthy sc), (truthy u); simpl;
    repeat rewrite <- app_assoc; simpl; eexists; reflexivity.
Qed.

Lemma after_reload_cache (env : Env) (s : State) :
  _config_cache (after_reload env s) = reloaded_cache env (_config_cache s).
Proof.
  unfold after_reload. destruct (reload_all_configs_eq env s) as [l ->]. reflexivity.
Qed.

Lemma all_truthy_iff (env : Env) :
  all_truthy env = true <-> forall d, truthy (doc_data env d) = true.
Proof.
  unfold all_truthy. rewrite !andb_true_iff. split.
  - intros [[[H1 H2] H3] H4] []; assumption.
  - intro H. repeat split; apply H.
Qed.

Lemma some_truthy_iff (env : Env) :
  some_truthy env = true <-> exists d, truthy (doc_data env d) = true.
Proof.
  unfold some_truthy. rewrite !orb_true_iff. split.
  - intros [[[H | H] | H] | H]; eauto.
  - intros [[] H]; tauto.
Qed.

Lemma slot_reloaded (env : Env) (c : ConfigCache) (d : Doc) :
  slot d (reloaded_cache env c) = merged (doc_data env d) (slot d c).
Proof. destruct d; reflexivity. Qed.

(** An accessor whose slot is truthy returns the slot and touches nothing. *)
Lemma accessor_cached (d : Doc) (env : Env) (s : State) :
  truthy (slot d (_config_cache s)) = true ->
  accessor d env s = (Ok (slot d (_config_cache s)), s).
Proof.
  intro H.
  destruct d; simpl in *;
    unfold get_energy_profiles, get_cwu_schedule, get_system_config, get_user_corrections,
      reload_if_empty, bind, read_cache, ret; simpl; rewrite H; simpl;
    try rewrite H; reflexivity.
Qed.

Lemma after_reload_last_load_time (env : Env) (s : State) :
  last_load_time (_config_cache (after_reload env s)) =
  if some_truthy env then JStr (isoformat (clock env))
  else last_load_time (_config_cache s).
Proof. rewrite after_reload_cache. reflexivity. Qed.

Lemma after_reloads_last_load_time (envs : list Env) :
  forall s,
    last_load_time (_config_cache (after_reloads envs s)) <> JNull <->
    (last_load_time (_config_cache s) <> JNull
     \/ Exists (fun env => some_truthy env = true) envs).
Proof.
  induction envs as [| env envs IH]; intro s; simpl.
  - split; [now left | intros [H | H]; [assumption | inversion H]].
  - rewrite IH, after_reload_last_load_time, Exists_cons.
    destruct (some_truthy env); split.
    + intros _. right. now left.
    + intros _. left. discriminate.
    + intros [H | H]; [now left | right; now right].
    + intros [H | [H | H]]; [now left | discriminate | now right].
Qed.

(** C4 (amended).  [reload_all_configs] always returns a boolean, and it
    returns [True] exactly when each of the four files was read, parsed and
    gave a truthy value (a non-empty object); it returns [False] as soon as
    one file is missing, unreadable, malformed, or holds an empty value such
    as the empty object or [null]. *)
Theorem reload_all_configs_true_iff (env : Env) (s : State) :
  fst (reload_all_configs env s) = Ok (all_truthy env)
  /\ (fst (reload_all_configs env s) = Ok true <->
      forall d, truthy (doc_data env d) = true)
  /\ (fst (reload_all_configs env s) = Ok false <->
      exists d, truthy (doc_data env d) = false).
Proof.
  destruct (reload_all_configs_eq env s) as [l ->]. simpl.
  split; [reflexivity | split].
  - rewrite <- all_truthy_iff. split; [now intros [= ->] | now intros ->].
  - split.
    + intros [= H]. unfold all_truthy in H.
      rewrite !andb_false_iff in H.
      destruct H as [[[H | H] | H] | H]; eauto.
    + intros [d H]. f_equal.
      destruct (all_truthy env) eqn:E; [| reflexivity].
      apply all_truthy_iff with (d := d) in E. congruence.
Qed.

(** C4, as stated, fails: with [cwu_schedule.json] holding the empty object
    and the three other files holding non-empty objects, all four documents
    load without error and [reload_all_configs] returns [False]. *)
Lemma reload_false_though_all_load :
  (forall d, loads_without_error env_empty_schedule d)
  /\ fst (reload_all_configs env_empty_schedule state_at_start) = Ok false.
Proof.
  split.
  - intros []; eexists; reflexivity.
  - reflexivity.
Qed.

(** C5 (amended).  In every reload and for each document on its own: when
    its file is missing, unreadable or malformed, or holds a falsy value
    (the empty object, [null], ...), the cached value of that document is
    exactly what it was before the call; when its file holds a truthy value,
    the cache holds that value after the call and the accessor of the
    document returns it, whatever the files then are, without touching the
    state. *)
Theorem reload_slot_frame (env : Env) (s : State) (d : Doc) :
  ((forall data, files env (filename d) <> Content data) ->
   slot d (_config_cache (after_reload env s)) = slot d (_config_cache s))
  /\ (forall data, files env (filename d) = Content data -> truthy data = false ->
      slot d (_config_cache (after_reload env s)) = slot d (_config_cache s))
  /\ (forall data, files env (filename d) = Content data -> truthy data = true ->
      slot d (_config_cache (after_reload env s)) = data
      /\ forall env', accessor d env' (after_reload env s) = (Ok data, after_reload env s)).
Proof.
  assert (E : slot d (_config_cache (after_reload env s)) =
              merged (doc_data env d) (slot d (_config_cache s))).
  { rewrite after_reload_cache. apply slot_reloaded. }
  unfold merged, doc_data in E.
  split; [| split].
  - intro H. rewrite E.
    destruct (files env (filename d)) eqn:F; try reflexivity.
    now destruct (H data).
  - intros data F T. rewrite E, F. simpl. now rewrite T.
  - intros data F T.
    assert (E' : slot d (_config_cache (after_reload env s)) = data).
    { rewrite E, F. simpl. now rewrite T. }
    split; [exact E' |].
    intro env'. rewrite accessor_cached; rewrite E'; [reflexivity | assumption].
Qed.

Lemma reload_slot_frame_witness :
  slot CwuSchedule (_config_cache (after_reload env_no_files state_all_cached)) = sample_doc
  /\ slot CwuSchedule (_config_cache (after_reload env_empty_schedule state_all_cached)) = sample_doc
  /\ slot SystemConfig (_config_cache (after_reload env_empty_schedule state_at_start)) = sample_doc.
Proof.
  split; [| split].
  - apply (proj1 (reload_slot_frame env_no_files state_all_cached CwuSchedule)).
    intros data H. discriminate H.
  - apply (proj1 (proj2 (reload_slot_frame env_empty_schedule state_all_cached CwuSchedule))
             (JDict [])); reflexivity.
  - apply (proj2 (proj2 (reload_slot_frame env_empty_schedule state_at_start SystemConfig))
             sample_doc); reflexivity.
Defined.

(** C5, as stated, fails: [cwu_schedule.json] is read and parsed without
    error and gives the empty object; the cached schedule is not updated to
    it, and the accessor keeps returning the value of the earlier load. *)
Lemma loaded_empty_document_not_stored :
  loads_without_error env_empty_schedule CwuSchedule
  /\ doc_data env_empty_schedule CwuSchedule = JDict []
  /\ slot CwuSchedule (_config_cache (after_reload env_empty_schedule state_all_cached))
     = sample_doc
  /\ fst (accessor CwuSchedule env_empty_schedule
            (after_reload env_empty_schedule state_all_cached)) = Ok sample_doc.
Proof.
  repeat split. eexists; reflexivity.
Qed.

(** C6 (amended).  Counting a document as loaded when its file gave a
    truthy value: after any sequence of reloads from the start of the
    process, [last_load_time] is not [None] exactly when some document was
    loaded in some call of the sequence; a reload in which some document is
    loaded sets [last_load_time] to the ISO text of the current time; a
    reload in which none is loaded leaves it as it was. *)
Theorem last_load_time_set_iff :
  (forall envs s, _config_cache s = initial_cache ->
     (last_load_time (_config_cache (after_reloads envs s)) <> JNull <->
      Exists (fun env => exists d, truthy (doc_data env d) = true) envs))
  /\ (forall env s, (exists d, truthy (doc_data env d) = true) ->
        last_load_time (_config_cache (after_reload env s)) = JStr (isoformat (clock env)))
  /\ (forall env s, (forall d, truthy (doc_data env d) = false) ->
        last_load_time (_config_cache (after_reload env s)) = last_load_time (_config_cache s)).
Proof.
  split; [| split].
  - intros envs s Hs. rewrite after_reloads_last_load_time, Hs. simpl. split.
    + intros [H | H]; [now destruct H |].
      eapply Exists_impl; [| exact H]. intros env. apply some_truthy_iff.
    + intro H. right.
      eapply Exists_impl; [| exact H]. intros env. apply some_truthy_iff.
  - intros env s H. rewrite after_reload_last_load_time.
    apply some_truthy_iff in H. now rewrite H.
  - intros env s H. rewrite after_reload_last_load_time.
    destruct (some_truthy env) eqn:E; [| reflexivity].
    apply some_truthy_iff in E. destruct E as [d E]. rewrite H in E. discriminate.
Qed.

Lemma last_load_time_set_iff_witness :
  last_load_time (_config_cache
    (after_reloads [env_no_files; env_empty_schedule; env_all_empty] state_at_start)) <> JNull
  /\ last_load_time (_config_cache (after_reload env_empty_schedule state_at_start))
     = JStr "2024-01-02T23:00:00"
  /\ last_load_time (_config_cache (after_reload env_no_files state_all_cached))
     = JStr "2024-01-01T00:00:00".
Proof.
  split; [| split].
  - apply (proj1 last_load_time_set_iff _ state_at_start eq_refl).
    right. left. exists EnergyProfiles. reflexivity.
  - apply (proj1 (proj2 last_load_time_set_iff) env_empty_schedule state_at_start).
    exists EnergyProfiles. reflexivity.
  - apply (proj2 (proj2 last_load_time_set_iff) env_no_files state_all_cached).
    intros []; reflexivity.
Defined.

(** C6, as stated, fails: when every file holds the empty object, all four
    documents load without error in the first reload of the process, and
    [last_load_time] is still [None] afterwards. *)
Lemma last_load_time_unset_though_all_load :
  (forall d, loads_without_error env_all_empty d)
  /\ last_load_time (_config_cache (after_reload env_all_empty state_at_start)) = JNull.
Proof.
  split.
  - intros []; eexists; reflexivity.
  - reflexivity.
Qed.

(** * Properties of the resolver *)

Lemma existsb_eq_str (x : string) (l : list json) :
  existsb (eq_str x) l = true <-> In (JStr x) l.
Proof.
  rewrite existsb_exists. split.
  - intros [e [Hin He]]. destruct e; try discriminate.
    simpl in He. apply String.eqb_eq in He. now subst.
  - intro H. exists (JStr x). split; [assumption |]. simpl. apply String.eqb_refl.
Qed.

Lemma weekday_range (dt : datetime) : 0 <= weekday dt <= 6.
Proof.
  unfold weekday.
  pose proof (Z.mod_pos_bound (toordinal dt + 6) 7 ltac:(lia)). lia.
Qed.

Ltac run_monad :=
  unfold bind, ret, lift, raise, read_self, read_cache, write_self, emit, datetime_now.

Section ReadsOnly.
Context {A B : Type}.

Lemma reads_only_ret (a : A) : reads_only (ret a).
Proof. intros env s. reflexivity. Qed.

Lemma reads_only_lift (o : outcome A) : reads_only (lift o).
Proof. intros env s. reflexivity. Qed.

Lemma reads_only_raise (e : exn) : reads_only (@raise A e).
Proof. intros env s. reflexivity. Qed.

Lemma reads_only_bind (c : M A) (k : A -> M B) :
  reads_only c -> (forall a, reads_only (k a)) -> reads_only (bind c k).
Proof.
  intros Hc Hk env s. unfold bind.
  specialize (Hc env s). destruct (c env s) as [[a | e] s']; simpl in *; subst.
  - apply Hk.
  - reflexivity.
Qed.

Lemma reads_only_if (b : bool) (c1 c2 : M A) :
  reads_only c1 -> reads_only c2 -> reads_only (if b then c1 else c2).
Proof. now destruct b. Qed.

Lemma always_raises_bind (c : M A) (k : A -> M B) :
  always_raises c -> always_raises (bind c k).
Proof.
  intros Hc env s. unfold bind. destruct (Hc env s) as [e ->]. now exists e.
Qed.

Lemma always_raises_after (c : M A) (k : A -> M B) :
  reads_only c -> (forall a, always_raises (k a)) -> always_raises (bind c k).
Proof.
  intros Hc Hk env s. unfold bind.
  specialize (Hc env s). destruct (c env s) as [[a | e] s']; simpl in *; subst.
  - apply Hk.
  - now exists e.
Qed.
End ReadsOnly.

Lemma reads_only_read_self : reads_only read_self.
Proof. intros env s. reflexivity. Qed.

Lemma reads_only_datetime_now : reads_only datetime_now.
Proof. intros env s. reflexivity. Qed.

Lemma reads_only_get_if_truthy (v : json) (k : string) : reads_only (get_if_truthy v k).
Proof. unfold get_if_truthy. apply reads_only_if; [apply reads_only_lift | apply reads_only_ret]. Qed.

Create HintDb reads discriminated.
#[local] Hint Resolve reads_only_ret reads_only_lift reads_only_raise reads_only_if
  reads_only_read_self reads_only_datetime_now reads_only_get_if_truthy : reads.

Ltac reads_only_tac :=
  repeat (first [ apply reads_only_bind; [| intro] | solve [auto with reads] ]).

(** [_get_day_type] reads the state and leaves it as it is. *)
Lemma get_day_type_reads_only (dt : datetime) : reads_only (_get_day_type dt).
Proof. unfold _get_day_type. reads_only_tac. Qed.

Lemma call_self_day_type : call_self "_get_day_type" = _get_day_type.
Proof. reflexivity. Qed.

(** [self._get_current_window(dt)] finds no attribute of that name. *)
Lemma current_window_is_no_method (dt : datetime) (env : Env) (s : State) :
  call_self "_get_current_window" dt env s
  = (Raise (AttributeError "_get_current_window"), s).
Proof. reflexivity. Qed.

(** [_update_system_status] raises before it assigns anything: at the
    latest on the lookup of [_get_current_window], line 79. *)
Lemma update_system_status_raises : always_raises _update_system_status.
Proof.
  unfold _update_system_status.
  apply always_raises_after; [auto with reads | intro now].
  apply always_raises_after; [auto with reads | intro me].
  apply always_raises_after; [auto with reads | intro boiler_config].
  apply always_raises_after; [auto with reads | intro default_power].
  apply always_raises_after; [apply get_day_type_reads_only | intro rodzaj_dnia].
  apply always_raises_bind.
  intros env s. eexists. reflexivity.
Qed.

Lemma get_day_type_with_lists (dt : datetime) (env : Env) (s : State)
    (sc cal : pydict) (fh mh : list json) :
  dict_get (config_data (self s)) "system_config" = Some (JDict sc) ->
  dict_get sc "calendar" = Some (JDict cal) ->
  dict_get_default cal "fixed_holidays" (JList []) = JList fh ->
  dict_get_default cal "movable_holidays" (JList []) = JList mh ->
  _get_day_type dt env s =
  (Ok (if existsb (eq_str (strftime_md dt)) fh || existsb (eq_str (strftime_Ymd dt)) mh
       then "niedziela/święto" else weekday_type dt), s).
Proof.
  intros Hsc Hcal Hfh Hmh.
  assert (E1 : dict_get_default (config_data (self s)) "system_config" (JDict []) = JDict sc)
    by (unfold dict_get_default; now rewrite Hsc).
  assert (E2 : dict_get_default sc "calendar" (JDict []) = JDict cal)
    by (unfold dict_get_default; now rewrite Hcal).
  assert (T : truthy (JDict sc) = true) by (destruct sc; [discriminate | reflexivity]).
  unfold _get_day_type, get_if_truthy. run_monad.
  rewrite E1, T. cbn [py_get]. rewrite E2. cbn [py_get]. rewrite Hfh, Hmh. cbn [py_in].
  destruct (existsb (eq_str (strftime_md dt)) fh); cbn [orb]; [reflexivity |].
  destruct (existsb (eq_str (strftime_Ymd dt)) mh); reflexivity.
Qed.

Lemma get_day_type_without_calendar (dt : datetime) (env : Env) (s : State) :
  calendar_absent (config_data (self s)) ->
  _get_day_type dt env s = (Ok (weekday_type dt), s).
Proof.
  unfold calendar_absent. intro H.
  assert (E : get_if_truthy
                (dict_get_default (config_data (self s)) "system_config" (JDict []))
                "calendar" env s = (Ok (JDict []), s)).
  { unfold get_if_truthy, dict_get_default.
    destruct (dict_get (config_data (self s)) "system_config") as [v |]; [| reflexivity].
    destruct v as [| b | z | q | str | l | sc]; try (rewrite H; reflexivity).
    destruct sc as [| kv sc']; [reflexivity |].
    cbn [truthy py_get lift]. unfold dict_get_default. now rewrite H. }
  unfold _get_day_type. run_monad. fold (@lift json). rewrite E. reflexivity.
Qed.

(** C1.  With a [calendar] section whose two holiday lists are lists (a
    missing list counts as empty): [_get_day_type] returns
    [niedziela/święto] (sunday_or_holiday) whenever the [MM-DD] text of the
    day is in [fixed_holidays] or its [YYYY-MM-DD] text is in
    [movable_holidays], whatever the day of the week; otherwise it returns
    the classification by day of the week, which is [roboczy] (workday) for
    Monday to Friday, [sobota] for Saturday and [niedziela/święto] for
    Sunday.  Without a [calendar] section the lists are empty, the result is
    the classification by day of the week, and no exception is raised. *)
Theorem get_day_type_classification (dt : datetime) (env : Env) (s : State) :
  (forall sc cal fh mh,
     dict_get (config_data (self s)) "system_config" = Some (JDict sc) ->
     dict_get sc "calendar" = Some (JDict cal) ->
     dict_get_default cal "fixed_holidays" (JList []) = JList fh ->
     dict_get_default cal "movable_holidays" (JList []) = JList mh ->
     (In (JStr (strftime_md dt)) fh \/ In (JStr (strftime_Ymd dt)) mh ->
      _get_day_type dt env s = (Ok "niedziela/święto", s))
     /\ (~ In (JStr (strftime_md dt)) fh -> ~ In (JStr (strftime_Ymd dt)) mh ->
         _get_day_type dt env s = (Ok (weekday_type dt), s)))
  /\ (calendar_absent (config_data (self s)) ->
      _get_day_type dt env s = (Ok (weekday_type dt), s))
  /\ (0 <= weekday dt <= 4 -> weekday_type dt = "roboczy")
  /\ (weekday dt = 5 -> weekday_type dt = "sobota")
  /\ (weekday dt = 6 -> weekday_type dt = "niedziela/święto")
  /\ 0 <= weekday dt <= 6.
Proof.
  split; [| split; [| split; [| split; [| split]]]].
  - intros sc cal fh mh Hsc Hcal Hfh Hmh.
    rewrite (get_day_type_with_lists dt env s sc cal fh mh Hsc Hcal Hfh Hmh).
    split.
    + intros [H | H]; apply existsb_eq_str in H; rewrite H;
        [reflexivity | now rewrite orb_true_r].
    + intros Hf Hm.
      destruct (existsb (eq_str (strftime_md dt)) fh) eqn:Ef;
        [apply existsb_eq_str in Ef; contradiction |].
      destruct (existsb (eq_str (strftime_Ymd dt)) mh) eqn:Em;
        [apply existsb_eq_str in Em; contradiction |].
      reflexivity.
  - apply get_day_type_without_calendar.
  - intro H. unfold weekday_type.
    destruct (weekday dt <? 5) eqn:E; [reflexivity | apply Z.ltb_ge in E; lia].
  - intro H. unfold weekday_type. rewrite H. reflexivity.
  - intro H. unfold weekday_type. rewrite H. reflexivity.
  - apply weekday_range.
Qed.

Lemma get_day_type_classification_witness :
  (* Monday 1 January 2024: a fixed holiday on a working day *)
  _get_day_type (mk_datetime 2024 1 1 10 0 0 0) env_no_files
    (state_with_config config_with_calendar)
  = (Ok "niedziela/święto", state_with_config config_with_calendar)
  (* Saturday 6 January 2024: no holiday of the sample calendar *)
  /\ _get_day_type (mk_datetime 2024 1 6 10 0 0 0) env_no_files
       (state_with_config config_with_calendar)
     = (Ok "sobota", state_with_config config_with_calendar)
  (* Tuesday 2 January 2024, no calendar section *)
  /\ _get_day_type (tuesday_at 10) env_no_files
       (state_with_config (config_with_night_hours (JStr "22:00-06:00")))
     = (Ok "roboczy", state_with_config (config_with_night_hours (JStr "22:00-06:00"))).
Proof.
  split; [| split].
  - refine (proj1 (proj1 (get_day_type_classification
              (mk_datetime 2024 1 1 10 0 0 0) env_no_files
              (state_with_config config_with_calendar)) _ _ _ _ eq_refl eq_refl eq_refl eq_refl) _).
    left. simpl. now left.
  - refine (proj2 (proj1 (get_day_type_classification
              (mk_datetime 2024 1 6 10 0 0 0) env_no_files
              (state_with_config config_with_calendar)) _ _ _ _ eq_refl eq_refl eq_refl eq_refl) _ _).
    + simpl. intros [H | [H | []]]; discriminate H.
    + simpl. intros [H | []]; discriminate H.
  - apply (proj1 (proj2 (get_day_type_classification (tuesday_at 10) env_no_files
              (state_with_config (config_with_night_hours (JStr "22:00-06:00")))))).
    reflexivity.
Defined.

(** ** The tariff of the status *)

(** C2: the code does not do what the claim says.  [_get_current_tariff]
    is not an attribute of [SystemManager]: its [def] (line 139) is nested
    in the body of [_get_day_type], after the last [return] of that body, so
    [self._get_current_tariff(dt)] raises [AttributeError] at every
    timestamp and returns neither band. *)
Theorem current_tariff_is_no_method (dt : datetime) (env : Env) (s : State) :
  find (fun m => String.eqb (fst m) "_get_current_tariff") SystemManager_dt_methods = None
  /\ call_self "_get_current_tariff" dt env s
     = (Raise (AttributeError "_get_current_tariff"), s)
  /\ forall band, fst (call_self "_get_current_tariff" dt env s) <> Ok band.
Proof.
  split; [reflexivity | split; [reflexivity |]].
  intros band H. discriminate H.
Qed.

(** C3: the code does not do what the claim says.  No tariff is ever
    classified, whatever [cheaper_night_hours] holds, malformed or not:
    [self._get_current_tariff(dt)] raises [AttributeError] to its caller,
    and [_update_system_status], the one place that calls it (line 80),
    raises one line earlier, in every state.  Nothing is logged on the way,
    so the warning of line 167 never appears, and no [taryfa] entry reaches
    the status.  The [try] and [except] of lines 155-167 stand in the
    unreachable tail of [_get_day_type]. *)
Theorem malformed_night_hours_raise (v : json) (dt : datetime) (env : Env) :
  let s := state_with_config (config_with_night_hours v) in
  call_self "_get_current_tariff" dt env s
  = (Raise (AttributeError "_get_current_tariff"), s)
  /\ _update_system_status env s = (Raise (AttributeError "_get_current_window"), s)
  /\ ~ In (WARNING, MsgBadNightTariff v) (log (snd (_update_system_status env s)))
  /\ dict_get (system_status (self (snd (_update_system_status env s)))) "taryfa" = None
  /\ (forall env' s', exists e, _update_system_status env' s' = (Raise e, s')).
Proof.
  intro s.
  assert (E : _update_system_status env s
              = (Raise (AttributeError "_get_current_window"), s)) by reflexivity.
  split; [reflexivity | split; [exact E |]].
  rewrite E. cbn [snd].
  split; [intros [] | split; [reflexivity | exact update_system_status_raises]].
Qed.

(** ** What the operations of the manager assign *)

Lemma same_but_config_refl (m : Manager) : same_but_config m m.
Proof. repeat split. Qed.

Lemma same_but_config_trans (m1 m2 m3 : Manager) :
  same_but_config m1 m2 -> same_but_config m2 m3 -> same_but_config m1 m3.
Proof.
  unfold same_but_config. intros (? & ? & ? & ?) (? & ? & ? & ?).
  repeat split; congruence.
Qed.

Section KeepsManager.
Context {A B : Type}.

Lemma keeps_reads_only (c : M A) : reads_only c -> keeps_manager c.
Proof. intros H env s. rewrite H. apply same_but_config_refl. Qed.

Lemma keeps_bind (c : M A) (k : A -> M B) :
  keeps_manager c -> (forall a, keeps_manager (k a)) -> keeps_manager (bind c k).
Proof.
  intros Hc Hk env s. unfold bind.
  specialize (Hc env s). destruct (c env s) as [[a | e] s']; simpl in *.
  - eapply same_but_config_trans; [exact Hc | apply Hk].
  - exact Hc.
Qed.

Lemma keeps_try_except (body : M A) (handler : exn -> M A) :
  keeps_manager body -> (forall e, keeps_manager (handler e)) ->
  keeps_manager (try_except body handler).
Proof.
  intros Hb Hh env s. unfold try_except.
  specialize (Hb env s). destruct (body env s) as [[a | e] s']; simpl in *.
  - exact Hb.
  - eapply same_but_config_trans; [exact Hb | apply Hh].
Qed.

Lemma keeps_if (b : bool) (c1 c2 : M A) :
  keeps_manager c1 -> keeps_manager c2 -> keeps_manager (if b then c1 else c2).
Proof. now destruct b. Qed.

(** After a computation that keeps the manager, a computation that always
    raises ends the whole in an exception, the manager being as the first
    left it. *)
Lemma keeps_then_raises (c : M A) (k : A -> M B) :
  keeps_manager c -> (forall a, always_raises (k a)) ->
  forall env s, exists e s',
    bind c k env s = (Raise e, s') /\ same_but_config (self s) (self s').
Proof.
  intros Hc Hk env s. unfold bind.
  specialize (Hc env s). destruct (c env s) as [[a | e] s']; simpl in *.
  - destruct (Hk a env s') as [e ->]. now exists e, s'.
  - now exists e, s'.
Qed.
End KeepsManager.

Lemma keeps_emit (l : level) (m : message) : keeps_manager (emit l m).
Proof. intros env s. apply same_but_config_refl. Qed.

Lemma keeps_write_cache (f : ConfigCache -> ConfigCache) : keeps_manager (write_cache f).
Proof. intros env s. apply same_but_config_refl. Qed.

Lemma keeps_set_config_data (v : pydict) : keeps_manager (write_self (set_config_data v)).
Proof. intros env s. repeat split. Qed.

Lemma keeps_reload_all_configs : keeps_manager reload_all_configs.
Proof.
  intros env s. destruct (reload_all_configs_eq env s) as [l ->].
  apply same_but_config_refl.
Qed.

Lemma reads_only_read_cache : reads_only read_cache.
Proof. intros env s. reflexivity. Qed.

#[local] Hint Resolve reads_only_read_cache : reads.

Lemma keeps_reload_if_empty (slot : ConfigCache -> json) : keeps_manager (reload_if_empty slot).
Proof.
  unfold reload_if_empty.
  apply keeps_bind; [apply keeps_reads_only; auto with reads | intro c].
  apply keeps_if.
  - apply keeps_bind; [apply keeps_reload_all_configs | intro].
    apply keeps_reads_only; auto with reads.
  - apply keeps_reads_only; auto with reads.
Qed.

Lemma keeps_accessor (d : Doc) : keeps_manager (accessor d).
Proof.
  destruct d; simpl;
    unfold get_energy_profiles, get_cwu_schedule, get_system_config, get_user_corrections;
    (apply keeps_bind; [apply keeps_reload_if_empty | intro]);
    apply keeps_reads_only; reads_only_tac.
Qed.

Lemma keeps_load_config_data : keeps_manager _load_config_data.
Proof.
  unfold _load_config_data. apply keeps_try_except.
  - apply keeps_bind; [apply (keeps_accessor EnergyProfiles) | intro ep].
    apply keeps_bind; [apply (keeps_accessor CwuSchedule) | intro cs].
    apply keeps_bind; [apply (keeps_accessor SystemConfig) | intro sc].
    apply keeps_bind; [apply (keeps_accessor UserCorrections) | intro uc].
    apply keeps_bind; [apply keeps_reads_only; unfold get_config_status; reads_only_tac | intro st].
    apply keeps_bind; [apply keeps_set_config_data | intro].
    apply keeps_bind; [apply keeps_reads_only; auto with reads | intro me].
    apply keeps_if; [| apply keeps_reads_only; auto with reads].
    apply keeps_bind; [apply keeps_reads_only; auto with reads | intro profiles].
    apply keeps_bind; [apply keeps_reads_only; auto with reads | intro keys].
    apply keeps_emit.
  - intro e. apply keeps_bind; [apply keeps_emit | intro]. apply keeps_set_config_data.
Qed.

(** With every document cached, [_load_config_data] reads the cache only:
    the cache is as before and [reload_all_configs] has logged nothing. *)
Lemma load_config_data_cached (env : Env) (s : State) :
  (forall d, truthy (slot d (_config_cache s)) = true) ->
  exists cfg l,
    _load_config_data env s =
    (Ok tt, mk_state (_config_cache s) (log s ++ l) (set_config_data cfg (self s)))
    /\ ~ In (INFO, MsgReloading) l.
Proof.
  intro H.
  unfold _load_config_data, try_except.
  change (get_energy_profiles None) with (accessor EnergyProfiles).
  change get_cwu_schedule with (accessor CwuSchedule).
  change get_system_config with (accessor SystemConfig).
  change get_user_corrections with (accessor UserCorrections).
  unfold bind at 1. rewrite accessor_cached by apply H.
  unfold bind at 1. rewrite accessor_cached by apply H.
  unfold bind at 1. rewrite accessor_cached by apply H.
  unfold bind at 1. rewrite accessor_cached by apply H.
  unfold get_config_status. run_monad. cbn [slot config_data set_config_data self].
  unfold dict_get_default. cbn [dict_get String.eqb Ascii.eqb Bool.eqb].
  rewrite (H EnergyProfiles : truthy (energy_profiles (_config_cache s)) = true).
  destruct (py_get (energy_profiles (_config_cache s)) "energy_profiles" (JDict []))
    as [profiles | e].
  - destruct (py_keys profiles) as [keys | e].
    + do 2 eexists. split; [reflexivity |]. intros [F | []]. discriminate F.
    + do 2 eexists. split; [reflexivity |]. intros [F | []]. discriminate F.
  - do 2 eexists. split; [reflexivity |]. intros [F | []]. discriminate F.
Qed.

Lemma toggle_cwu_boiler_eq (enabled : bool) (env : Env) (s : State) :
  exists e, toggle_cwu_boiler enabled env s = (Raise e, toggled enabled s).
Proof.
  unfold toggle_cwu_boiler.
  unfold bind at 1. unfold write_self at 1.
  unfold bind at 1.
  destruct enabled.
  - unfold bind at 2. unfold write_self, emit. unfold bind.
    match goal with |- context [_update_system_status env ?s1] =>
      destruct (update_system_status_raises env s1) as [e ->] end.
    now exists e.
  - unfold emit. unfold bind.
    match goal with |- context [_update_system_status env ?s1] =>
      destruct (update_system_status_raises env s1) as [e ->] end.
    now exists e.
Qed.

(** C7: the code does not do what the claim says.  [toggle_cwu_boiler]
    assigns the two flags as the claim says ([heaters_locked] becomes [True]
    when enabling and is left alone when disabling), and then raises in
    [_update_system_status]: the status is not recomputed and no
    acknowledgment is returned. *)
Theorem toggle_cwu_boiler_raises (enabled : bool) (env : Env) (s : State) :
  exists e s',
    toggle_cwu_boiler enabled env s = (Raise e, s')
    /\ cwu_boiler_enabled (self s') = Some enabled
    /\ heaters_locked (self s') = (if enabled then Some true else heaters_locked (self s))
    /\ system_status (self s') = system_status (self s)
    /\ last_update (self s') = last_update (self s).
Proof.
  destruct (toggle_cwu_boiler_eq enabled env s) as [e E].
  exists e, (toggled enabled s).
  split; [exact E |]. repeat split.
Qed.

(** C8: the code does not do what the claim says.  When every document is
    cached, [refresh_data] does not call [reload_all_configs]: the cache is
    what it was, whatever the files now hold, and the record that
    [reload_all_configs] logs first is not logged.  The call then raises in
    [_update_system_status], so the status is not recomputed either. *)
Theorem refresh_data_skips_reload (env : Env) (s : State) :
  (forall d, truthy (slot d (_config_cache s)) = true) ->
  exists e s' l,
    refresh_data env s = (Raise e, s')
    /\ _config_cache s' = _config_cache s
    /\ log s' = (log s ++ l)%list
    /\ ~ In (INFO, MsgReloading) l
    /\ system_status (self s') = system_status (self s).
Proof.
  intro H. unfold refresh_data. unfold bind at 1.
  destruct (load_config_data_cached env s H) as (cfg & l & -> & Hl).
  unfold bind at 1.
  match goal with |- context [_update_system_status env ?s1] =>
    destruct (update_system_status_raises env s1) as [e ->] end.
  exists e. eexists. exists l. split; [reflexivity |]. repeat split. exact Hl.
Qed.

Lemma refresh_data_skips_reload_witness :
  exists e s' l,
    refresh_data env_all_changed state_all_cached = (Raise e, s')
    /\ _config_cache s' = _config_cache state_all_cached
    /\ log s' = (log state_all_cached ++ l)%list
    /\ ~ In (INFO, MsgReloading) l
    /\ system_status (self s') = system_status (self state_all_cached).
Proof.
  apply (refresh_data_skips_reload env_all_changed state_all_cached).
  intros []; reflexivity.
Defined.

Lemma refresh_data_raises (env : Env) (s : State) :
  exists e s', refresh_data env s = (Raise e, s') /\ same_but_config (self s) (self s').
Proof.
  unfold refresh_data. apply keeps_then_raises; [apply keeps_load_config_data | intro].
  apply always_raises_bind, update_system_status_raises.
Qed.

Lemma init_raises (env : Env) (s : State) :
  exists e s',
    __init__ env s = (Raise e, s')
    /\ same_but_config (mk_manager [] [] None None None) (self s').
Proof.
  unfold __init__. unfold bind at 1. unfold write_self at 1.
  match goal with |- context [bind _load_config_data ?k env ?s0] =>
    destruct (keeps_then_raises _load_config_data k keeps_load_config_data
                (fun _ => always_raises_bind _ _ update_system_status_raises) env s0)
      as (e & s' & -> & Hs) end.
  now exists e, s'.
Qed.

(** C9: the code does not do what the claim says.  The dict that
    [_update_system_status] would assign holds the constant texts [WŁ] and
    [TAK] under [cwz_z_kotla] and [grzalki_zablokowane], whatever the flags
    are; and since [_update_system_status] raises before the assignment, no
    snapshot is produced: after a toggle or a refresh [system_status] is
    what it was, and after construction it is the empty dict of line 27,
    which has neither field. *)
Theorem status_snapshot_ignores_flags :
  (forall dt rodzaj_dnia okno_dobowe taryfa cfg profiles morning evening,
     let snapshot := status_dict dt rodzaj_dnia okno_dobowe taryfa cfg profiles morning evening in
     dict_get snapshot "cwz_z_kotla" = Some (JStr "WŁ")
     /\ dict_get snapshot "grzalki_zablokowane" = Some (JStr "TAK"))
  /\ (forall enabled env s,
        system_status (self (snd (toggle_cwu_boiler enabled env s))) = system_status (self s))
  /\ (forall env s,
        system_status (self (snd (refresh_data env s))) = system_status (self s))
  /\ (forall env s,
        system_status (self (snd (__init__ env s))) = []
        /\ dict_get (system_status (self (snd (__init__ env s)))) "grzalki_zablokowane" = None).
Proof.
  split; [| split; [| split]].
  - intros. split; reflexivity.
  - intros enabled env s.
    destruct (toggle_cwu_boiler_eq enabled env s) as [e ->]. reflexivity.
  - intros env s. destruct (refresh_data_raises env s) as (e & s' & -> & H & _).
    exact H.
  - intros env s. destruct (init_raises env s) as (e & s' & -> & H & _).
    simpl in *. rewrite H. split; reflexivity.
Qed.

(** C10: the code does not do what the claim says.  [SystemManager()]
    raises in [_update_system_status] (line 33) before lines 34-35 assign
    the flags: no constructed manager exists and [heaters_locked] is never
    initialised.  What the claim says of the operations does hold: neither
    [toggle_cwu_boiler] nor [refresh_data] ever assigns [False] to
    [heaters_locked]. *)
Theorem init_raises_before_flags :
  (forall env s, exists e s',
     __init__ env s = (Raise e, s')
     /\ heaters_locked (self s') = None
     /\ cwu_boiler_enabled (self s') = None)
  /\ (forall enabled env s,
        heaters_locked (self s) <> Some false ->
        heaters_locked (self (snd (toggle_cwu_boiler enabled env s))) <> Some false)
  /\ (forall env s,
        heaters_locked (self (snd (refresh_data env s))) = heaters_locked (self s)).
Proof.
  split; [| split].
  - intros env s. destruct (init_raises env s) as (e & s' & E & _ & _ & Hc & Hh).
    exists e, s'. split; [exact E | split; [exact Hh | exact Hc]].
  - intros enabled env s H.
    destruct (toggle_cwu_boiler_eq enabled env s) as [e ->]. simpl.
    destruct enabled; [discriminate | exact H].
  - intros env s. destruct (refresh_data_raises env s) as (e & s' & -> & _ & _ & _ & H).
    exact H.
Qed.

Lemma init_raises_before_flags_witness :
  heaters_locked (self (snd (toggle_cwu_boiler false env_no_files
                               (state_with_config config_with_calendar)))) <> Some false.
Proof.
  apply (proj1 (proj2 init_raises_before_flags) false env_no_files
           (state_with_config config_with_calendar)).
  discriminate.
Defined.

(** ** The operations at sample inputs *)

(** Construction with four loadable files: the exception is the missing
    attribute of line 79. *)
Example init_with_all_files :
  fst (__init__ env_all_present state_after_import)
  = Raise (AttributeError "_get_current_window")
  /\ heaters_locked (self (snd (__init__ env_all_present state_after_import))) = None.
Proof. split; reflexivity. Qed.

(** Enabling the boiler on a manager whose heaters are unlocked: the flags
    are assigned, then the call raises. *)
Example toggle_on_unlocked :
  toggle_cwu_boiler true env_no_files state_unlocked
  = (Raise (AttributeError "_get_current_window"), toggled true state_unlocked)
  /\ heaters_locked (self (toggled true state_unlocked)) = Some true.
Proof. split; reflexivity. Qed.

(** Refreshing with every document cached while the files have changed:
    the cache keeps the old documents. *)
Example refresh_with_changed_files :
  fst (refresh_data env_all_changed state_all_cached)
  = Raise (AttributeError "_get_current_window")
  /\ cwu_schedule (_config_cache (snd (refresh_data env_all_changed state_all_cached)))
     = sample_doc
  /\ cwu_schedule (_config_cache (after_reload env_all_changed state_all_cached))
     = changed_doc.
Proof. repeat split. Qed.

(** * Further properties of the configuration store *)

(** The whole effect of one reload: result, cache, log, manager. *)
Lemma reload_all_configs_full (env : Env) (s : State) :
  reload_all_configs env s =
  (Ok (all_truthy env),
   mk_state (reloaded_cache env (_config_cache s)) (log s ++ reload_records env) (self s)).
Proof.
  destruct s as [[e0 c0 sc0 u0 t0] l0 m0].
  unfold reload_all_configs, bind at 1. unfold emit at 1.
  unfold bind at 1. rewrite load_json_file_eq.
  unfold bind at 1. rewrite load_json_file_eq.
  unfold bind at 1. rewrite load_json_file_eq.
  unfold bind at 1. rewrite load_json_file_eq.
  unfold reload_records, loaded_files, all_docs.
  unfold reloaded_cache, all_truthy, some_truthy, merged, doc_data.
  cbn [map filter filename].
  generalize (load_record "energy_profiles.json" (files env "energy_profiles.json")); intro r1.
  generalize (load_record "cwu_schedule.json" (files env "cwu_schedule.json")); intro r2.
  generalize (load_record "system_config.json" (files env "system_config.json")); intro r3.
  generalize (load_record "user_corrections.json" (files env "user_corrections.json")); intro r4.
  generalize (loaded_data (files env "energy_profiles.json")); intro e.
  generalize (loaded_data (files env "cwu_schedule.json")); intro c.
  generalize (loaded_data (files env "system_config.json")); intro sc.
  generalize (loaded_data (files env "user_corrections.json")); intro u.
  unfold store_if_loaded, bind, write_cache, emit, ret, datetime_now. simpl.
  destruct (truthy e), (truthy c), (truthy sc), (truthy u); simpl;
    repeat rewrite <- app_assoc; simpl; reflexivity.
Qed.

Lemma after_reload_eq (env : Env) (s : State) :
  after_reload env s =
  mk_state (reloaded_cache env (_config_cache s)) (log s ++ reload_records env) (self s).
Proof. unfold after_reload. now rewrite reload_all_configs_full. Qed.

Lemma filename_inj (d d' : Doc) : filename d = filename d' -> d = d'.
Proof. destruct d, d'; simpl; intro H; try reflexivity; discriminate H. Qed.

Lemma in_all_docs (d : Doc) : In d all_docs.
Proof. destruct d; simpl; tauto. Qed.

Lemma load_record_not_warning (name : string) (f : file_state) (m : message) :
  load_record name f <> (WARNING, m).
Proof. destruct f; discriminate. Qed.

Lemma load_record_not_summary (name : string) (f : file_state) (l : list string) :
  load_record name f <> (INFO, MsgLoadedFiles l).
Proof. destruct f; discriminate. Qed.

Lemma in_loaded_files (env : Env) (d : Doc) :
  In (filename d) (loaded_files env) <-> truthy (doc_data env d) = true.
Proof.
  unfold loaded_files. rewrite in_map_iff. split.
  - intros (d' & Hn & Hin). apply filename_inj in Hn. subst d'.
    now apply filter_In in Hin.
  - intro H. exists d. split; [reflexivity |]. apply filter_In.
    split; [apply in_all_docs | exact H].
Qed.

(** X1.  One call of [reload_all_configs] appends to the log, after the
    opening record and one record per file read, exactly one warning for
    each document that is not stored (none for a stored one), and then one
    summary record that lists the stored files in the fixed order of the
    four documents; the summary is left out when nothing was stored. *)
Theorem reload_log_records (env : Env) (s : State) :
  log (after_reload env s) = (log s ++ reload_records env)%list
  /\ (forall d, In (WARNING, MsgNotLoaded (filename d)) (reload_records env)
                <-> truthy (doc_data env d) = false)
  /\ (forall l, In (INFO, MsgLoadedFiles l) (reload_records env)
                <-> l = loaded_files env /\ l <> [])
  /\ (forall d, In (filename d) (loaded_files env) <-> truthy (doc_data env d) = true).
Proof.
  split; [now rewrite after_reload_eq |].
  split; [| split; [| apply in_loaded_files]].
  - intro d. unfold reload_records. rewrite !in_app_iff. split.
    + intros [H | [H | H]].
      * destruct H as [H | H]; [discriminate H |].
        apply in_map_iff in H. destruct H as (d' & H & _).
        now apply load_record_not_warning in H.
      * apply in_map_iff in H. destruct H as (d' & Hn & Hin).
        injection Hn as Hn. apply filename_inj in Hn. subst d'.
        apply filter_In in Hin. now apply negb_true_iff.
      * destruct (loaded_files env); [destruct H |].
        destruct H as [H | []]. discriminate H.
    + intro H. right. left. apply in_map_iff. exists d. split; [reflexivity |].
      apply filter_In. split; [apply in_all_docs | now apply negb_true_iff].
  - intro l. unfold reload_records. rewrite !in_app_iff. split.
    + intros [H | [H | H]].
      * destruct H as [H | H]; [discriminate H |].
        apply in_map_iff in H. destruct H as (d' & H & _).
        now apply load_record_not_summary in H.
      * apply in_map_iff in H. destruct H as (d' & H & _). discriminate H.
      * destruct (loaded_files env) as [| f fs]; [destruct H |].
        destruct H as [H | []]. injection H as <-. split; [reflexivity | discriminate].
    + intros [-> Hne]. right. right.
      destruct (loaded_files env) as [| f fs]; [now destruct Hne | now left].
Qed.

Lemma merged_idem (data old : json) : merged data (merged data old) = merged data old.
Proof. unfold merged. now destruct (truthy data). Qed.

Lemma reloaded_cache_idem (env : Env) (c : ConfigCache) :
  reloaded_cache env (reloaded_cache env c) = reloaded_cache env c.
Proof.
  unfold reloaded_cache. cbn [energy_profiles cwu_schedule system_config user_corrections
                              last_load_time].
  rewrite !merged_idem. now destruct (some_truthy env).
Qed.

(** X2.  Reloading twice while the files and the clock are the same leaves
    the cache as one reload leaves it, and the second call returns what the
    first returned. *)
Theorem reload_twice (env : Env) (s : State) :
  _config_cache (after_reload env (after_reload env s)) = _config_cache (after_reload env s)
  /\ fst (reload_all_configs env (after_reload env s)) = fst (reload_all_configs env s).
Proof.
  split.
  - rewrite !after_reload_cache. apply reloaded_cache_idem.
  - now rewrite !reload_all_configs_full.
Qed.

Lemma truthy_merged (data old : json) :
  truthy old = true -> truthy (merged data old) = true.
Proof. unfold merged. intro H. now destruct (truthy data) eqn:E. Qed.

(** X3.  A document that is cached stays cached: once a slot holds a
    truthy value, it holds a truthy value after any sequence of reloads,
    whatever the files become. *)
Theorem cached_document_stays (d : Doc) (envs : list Env) :
  forall s,
    truthy (slot d (_config_cache s)) = true ->
    truthy (slot d (_config_cache (after_reloads envs s))) = true.
Proof.
  induction envs as [| env envs IH]; intros s H; simpl; [exact H |].
  apply IH. rewrite after_reload_cache, slot_reloaded. now apply truthy_merged.
Qed.

Lemma cached_document_stays_witness :
  truthy (slot CwuSchedule
            (_config_cache (after_reloads [env_no_files; env_all_empty; env_no_files]
                              state_all_cached))) = true.
Proof.
  apply (cached_document_stays CwuSchedule [env_no_files; env_all_empty; env_no_files]
           state_all_cached).
  reflexivity.
Defined.

Lemma truthy_not_null (v : json) : truthy v = true -> v <> JNull.
Proof. intros H ->. discriminate H. Qed.

Lemma cache_ok_initial : cache_ok initial_cache.
Proof.
  split.
  - intros []; now left.
  - split; [intros _ []; reflexivity | reflexivity].
Qed.

Lemma cache_ok_reloaded (env : Env) (c : ConfigCache) :
  cache_ok c -> cache_ok (reloaded_cache env c).
Proof.
  intros [Hs Ht]. split.
  - intro d. rewrite slot_reloaded. unfold merged.
    destruct (truthy (doc_data env d)) eqn:E; [now right | apply Hs].
  - unfold reloaded_cache at 1. cbn [last_load_time].
    destruct (some_truthy env) eqn:E.
    + split; [discriminate |]. intro H.
      apply some_truthy_iff in E. destruct E as [d E].
      specialize (H d). rewrite slot_reloaded in H. unfold merged in H. rewrite E in H.
      now apply truthy_not_null in E.
    + assert (F : forall d, truthy (doc_data env d) = false).
      { intro d. destruct (truthy (doc_data env d)) eqn:T; [| reflexivity].
        assert (S : some_truthy env = true) by (apply some_truthy_iff; eauto).
        congruence. }
      rewrite Ht. split; intros H d; specialize (H d);
        rewrite slot_reloaded in *; unfold merged in *; now rewrite F in *.
Qed.

(** X4.  The shape of the cache is an invariant of reloading: starting at
    the cache of a fresh process, after any sequence of reloads every slot
    is [None] or holds a truthy value (never an empty object), and
    [last_load_time] is [None] exactly when all four slots are [None]. *)
Theorem cache_shape_invariant :
  cache_ok initial_cache
  /\ forall envs s, cache_ok (_config_cache s) ->
                    cache_ok (_config_cache (after_reloads envs s)).
Proof.
  split; [apply cache_ok_initial |].
  induction envs as [| env envs IH]; intros s H; simpl; [exact H |].
  apply IH. rewrite after_reload_cache. now apply cache_ok_reloaded.
Qed.

Lemma cache_shape_invariant_witness :
  cache_ok (_config_cache
              (after_reloads [env_all_empty; env_empty_schedule; env_no_files] state_at_start)).
Proof.
  apply (proj2 cache_shape_invariant [env_all_empty; env_empty_schedule; env_no_files]
           state_at_start).
  apply cache_ok_initial.
Defined.

Lemma slot_ok_not_none (v : json) : slot_ok v -> is_not_none v = truthy v.
Proof. intros [-> | H]; [reflexivity |]. rewrite H. now destruct v. Qed.

Lemma slot_ok_null (v : json) : slot_ok v -> (v = JNull <-> truthy v = false).
Proof.
  intros [-> | H]; [easy |]. split; [intros ->; discriminate H | congruence].
Qed.

(** X5.  On a cache of the invariant shape, [get_config_status] changes
    nothing (it does not load, even when the cache is empty) and reports a
    document as loaded exactly when its slot is truthy, that is, when its
    accessor would serve it without a reload; it reports no load time
    exactly when it reports no document as loaded. *)
Theorem config_status_flags (env : Env) (s : State) :
  cache_ok (_config_cache s) ->
  exists flags,
    get_config_status env s =
    (Ok (JDict [ ("last_load_time", last_load_time (_config_cache s));
                 ("files_loaded", JDict flags) ]), s)
    /\ (forall d, dict_get flags (cache_key d)
                  = Some (JBool (truthy (slot d (_config_cache s)))))
    /\ (last_load_time (_config_cache s) = JNull <->
        forall d, dict_get flags (cache_key d) = Some (JBool false)).
Proof.
  intros [Hs Ht].
  pose proof (Hs EnergyProfiles) as H1. pose proof (Hs CwuSchedule) as H2.
  pose proof (Hs SystemConfig) as H3. pose proof (Hs UserCorrections) as H4.
  simpl in H1, H2, H3, H4.
  eexists. split; [reflexivity |].
  assert (F : forall d,
    dict_get
      [("energy_profiles", JBool (is_not_none (energy_profiles (_config_cache s))));
       ("cwu_schedule", JBool (is_not_none (cwu_schedule (_config_cache s))));
       ("system_config", JBool (is_not_none (system_config (_config_cache s))));
       ("user_corrections", JBool (is_not_none (user_corrections (_config_cache s))))]
      (cache_key d) = Some (JBool (truthy (slot d (_config_cache s))))).
  { intros []; simpl; now rewrite slot_ok_not_none. }
  split; [exact F |].
  rewrite Ht. split.
  - intros H d. rewrite F. specialize (H d). rewrite H. reflexivity.
  - intros H d. specialize (H d). rewrite F in H. injection H as H.
    now apply slot_ok_null.
Qed.

Lemma config_status_flags_witness :
  exists flags,
    get_config_status env_no_files state_at_start =
    (Ok (JDict [ ("last_load_time", JNull); ("files_loaded", JDict flags) ]), state_at_start)
    /\ (forall d, dict_get flags (cache_key d) = Some (JBool false)).
Proof.
  destruct (config_status_flags env_no_files state_at_start cache_ok_initial)
    as (flags & E & F & _).
  exists flags. split; [exact E |]. intro d. rewrite F. now destruct d.
Defined.

Lemma reload_if_empty_eq (sl : ConfigCache -> json) (env : Env) (s : State) :
  reload_if_empty sl env s =
  (Ok tt, if truthy (sl (_config_cache s)) then s else after_reload env s).
Proof.
  unfold reload_if_empty, bind, read_cache, ret, after_reload.
  destruct (truthy (sl (_config_cache s))); simpl; [reflexivity |].
  now rewrite reload_all_configs_full.
Qed.

(** X6.  An accessor that finds its slot empty does a full reload: the
    state afterwards is the state after [reload_all_configs], so the three
    other documents are reloaded as well, and the call returns the document
    just read, or [None] when its file gave nothing to store. *)
Theorem accessor_loads_on_demand (d : Doc) (env : Env) (s : State) :
  slot d (_config_cache s) = JNull ->
  accessor d env s = (Ok (merged (doc_data env d) JNull), after_reload env s).
Proof.
  intro H.
  assert (E : slot d (_config_cache (after_reload env s)) = merged (doc_data env d) JNull)
    by now rewrite after_reload_cache, slot_reloaded, H.
  destruct d; simpl in H, E |- *;
    unfold get_energy_profiles, get_cwu_schedule, get_system_config, get_user_corrections;
    unfold bind at 1; rewrite reload_if_empty_eq, H; cbn [truthy];
    unfold bind, read_cache, ret; rewrite E; try reflexivity.
  unfold merged. destruct (truthy (doc_data env EnergyProfiles)) eqn:T.
  - now rewrite T.
  - reflexivity.
Qed.

Lemma accessor_loads_on_demand_witness :
  accessor SystemConfig env_empty_schedule state_at_start
  = (Ok sample_doc, after_reload env_empty_schedule state_at_start)
  /\ cwu_schedule (_config_cache (after_reload env_empty_schedule state_at_start)) = JNull
  /\ energy_profiles (_config_cache (after_reload env_empty_schedule state_at_start))
     = sample_doc.
Proof.
  split; [| split; reflexivity].
  apply (accessor_loads_on_demand SystemConfig env_empty_schedule state_at_start).
  reflexivity.
Defined.

(** X7.  After a reload that returns [True], the cache holds exactly the
    four documents just read, each from a file that was read and parsed
    without error, and [last_load_time] is the ISO text of the current
    time. *)
Theorem reload_true_cache (env : Env) (s : State) :
  fst (reload_all_configs env s) = Ok true ->
  (forall d, slot d (_config_cache (after_reload env s)) = doc_data env d
             /\ loads_without_error env d)
  /\ last_load_time (_config_cache (after_reload env s)) = JStr (isoformat (clock env)).
Proof.
  rewrite reload_all_configs_full. cbn [fst]. intros [= H].
  pose proof (proj1 (all_truthy_iff env) H) as T.
  split.
  - intro d. rewrite after_reload_cache, slot_reloaded. unfold merged. rewrite T.
    split; [reflexivity |].
    specialize (T d). unfold loads_without_error, doc_data in *.
    destruct (files env (filename d)); try discriminate T. now eexists.
  - rewrite after_reload_last_load_time.
    assert (S : some_truthy env = true) by (apply some_truthy_iff; exists EnergyProfiles; apply T).
    now rewrite S.
Qed.

Lemma reload_true_cache_witness :
  slot CwuSchedule (_config_cache (after_reload env_all_changed state_all_cached)) = changed_doc.
Proof.
  apply (proj1 (reload_true_cache env_all_changed state_all_cached eq_refl) CwuSchedule).
Defined.

(** X8.  With the energy-profiles document cached, the accessor called
    with a day type returns the profile stored under
    [energy_profiles][day_type], and [None] when the day type or the whole
    [energy_profiles] section is missing; it raises [AttributeError] when
    the document, or its [energy_profiles] entry, is not an object.  An
    empty day type gives the whole document, like no day type. *)
Theorem energy_profile_lookup :
  (forall env s v k,
     energy_profiles (_config_cache s) = v -> truthy v = true -> k <> "" ->
     get_energy_profiles (Some k) env s =
     (match v with
      | JDict doc =>
          match dict_get doc "energy_profiles" with
          | None => Ok JNull
          | Some (JDict profiles) => Ok (dict_get_default profiles k JNull)
          | Some _ => Raise (AttributeError "get")
          end
      | _ => Raise (AttributeError "get")
      end, s))
  /\ (forall env s, get_energy_profiles (Some "") env s = get_energy_profiles None env s).
Proof.
  split; [| reflexivity].
  intros env s v k H T Hk.
  unfold get_energy_profiles. unfold bind at 1. rewrite reload_if_empty_eq, H, T.
  unfold bind, read_cache, ret, lift. rewrite H, T. cbn [negb].
  assert (K : String.eqb k "" = false) by now apply String.eqb_neq.
  rewrite K.
  destruct v as [| b | z | q | str | l | doc]; try reflexivity.
  cbn [py_get]. unfold dict_get_default at 1.
  destruct (dict_get doc "energy_profiles") as [x |]; [| reflexivity].
  destruct x; reflexivity.
Qed.

Lemma energy_profile_lookup_witness :
  get_energy_profiles (Some "sobota") env_no_files (state_with_profiles sample_profiles)
  = (Ok (JDict [("h", JInt 2)]), state_with_profiles sample_profiles)
  /\ get_energy_profiles (Some "niedziela_swieto") env_no_files
       (state_with_profiles sample_profiles)
     = (Ok JNull, state_with_profiles sample_profiles)
  /\ get_energy_profiles (Some "sobota") env_no_files
       (state_with_profiles (JList [JInt 1]))
     = (Raise (AttributeError "get"), state_with_profiles (JList [JInt 1])).
Proof.
  split; [| split].
  - apply (proj1 energy_profile_lookup env_no_files (state_with_profiles sample_profiles)
             sample_profiles "sobota" eq_refl eq_refl). discriminate.
  - apply (proj1 energy_profile_lookup env_no_files (state_with_profiles sample_profiles)
             sample_profiles "niedziela_swieto" eq_refl eq_refl). discriminate.
  - apply (proj1 energy_profile_lookup env_no_files (state_with_profiles (JList [JInt 1]))
             (JList [JInt 1]) "sobota" eq_refl eq_refl). discriminate.
Defined.

(** * Further properties of the resolver *)

Lemma accessor_served (d : Doc) (env : Env) (s : State) :
  exists v,
    accessor d env s = (Ok v, served d env s)
    /\ (truthy (slot d (_config_cache s)) = true -> v = slot d (_config_cache s)).
Proof.
  unfold served.
  destruct (truthy (slot d (_config_cache s))) eqn:T.
  - exists (slot d (_config_cache s)). split; [now apply accessor_cached | reflexivity].
  - destruct d; simpl in T |- *;
      unfold get_energy_profiles, get_cwu_schedule, get_system_config, get_user_corrections;
      unfold bind at 1; rewrite reload_if_empty_eq, T;
      unfold bind, read_cache, ret.
    + destruct (negb _); eexists; (split; [reflexivity | discriminate]).
    + eexists; (split; [reflexivity | discriminate]).
    + eexists; (split; [reflexivity | discriminate]).
    + eexists; (split; [reflexivity | discriminate]).
Qed.

Lemma served_reloaded (d : Doc) (env : Env) (c : ConfigCache)
    (l : list log_record) (m : Manager) :
  exists l',
    served d env (mk_state (reloaded_cache env c) l m)
    = mk_state (reloaded_cache env c) (l ++ l') m.
Proof.
  unfold served. cbn [_config_cache].
  destruct (truthy (slot d (reloaded_cache env c))).
  - exists []. now rewrite app_nil_r.
  - exists (reload_records env). rewrite after_reload_eq. cbn [_config_cache log self].
    now rewrite reloaded_cache_idem.
Qed.

(** The four accessors in a row: no reload when every document is cached,
    otherwise the effect of one reload on the cache. *)
Lemma served_all (env : Env) (s : State) :
  exists l,
    served UserCorrections env
      (served SystemConfig env (served CwuSchedule env (served EnergyProfiles env s)))
    = mk_state (if all_cached (_config_cache s) then _config_cache s
                else reloaded_cache env (_config_cache s))
               (log s ++ l) (self s).
Proof.
  destruct s as [c l m]. cbn [_config_cache log self].
  unfold all_cached, all_docs. cbn [forallb slot].
  unfold served at 4. cbn [_config_cache slot].
  destruct (truthy (energy_profiles c)); cbn [andb].
  - unfold served at 3. cbn [_config_cache slot].
    destruct (truthy (cwu_schedule c)); cbn [andb].
    + unfold served at 2. cbn [_config_cache slot].
      destruct (truthy (system_config c)); cbn [andb].
      * unfold served at 1. cbn [_config_cache slot].
        destruct (truthy (user_corrections c)); cbn [andb].
        -- exists []. now rewrite app_nil_r.
        -- rewrite after_reload_eq. now eexists.
      * rewrite after_reload_eq. cbn [_config_cache log self].
        destruct (served_reloaded UserCorrections env c (l ++ reload_records env) m) as [l1 ->].
        rewrite <- app_assoc. now eexists.
    + rewrite after_reload_eq. cbn [_config_cache log self].
      destruct (served_reloaded SystemConfig env c (l ++ reload_records env) m) as [l1 ->].
      destruct (served_reloaded UserCorrections env c ((l ++ reload_records env) ++ l1) m)
        as [l2 ->].
      rewrite <- !app_assoc. now eexists.
  - rewrite after_reload_eq. cbn [_config_cache log self].
    destruct (served_reloaded CwuSchedule env c (l ++ reload_records env) m) as [l1 ->].
    destruct (served_reloaded SystemConfig env c ((l ++ reload_records env) ++ l1) m)
      as [l2 ->].
    destruct (served_reloaded UserCorrections env c
                (((l ++ reload_records env) ++ l1) ++ l2) m) as [l3 ->].
    rewrite <- !app_assoc. now eexists.
Qed.

Lemma dict_get_default_head (k : string) (v : json) (rest : pydict) (dflt : json) :
  dict_get_default ((k, v) :: rest) k dflt = v.
Proof. unfold dict_get_default. simpl. now rewrite String.eqb_refl. Qed.

(** The whole effect of [_load_config_data]. *)
Lemma load_config_data_effect (env : Env) (s : State) :
  exists cfg l,
    _load_config_data env s =
    (Ok tt,
     mk_state (if all_cached (_config_cache s) then _config_cache s
               else reloaded_cache env (_config_cache s))
              (log s ++ l) (set_config_data cfg (self s)))
    /\ (cfg = [] \/ dict_keys cfg = view_keys)
    /\ (truthy (energy_profiles (_config_cache s)) = true ->
        (cfg = [] <-> profiles_section_ok (energy_profiles (_config_cache s)) = false)).
Proof.
  unfold _load_config_data, try_except.
  change (get_energy_profiles None) with (accessor EnergyProfiles).
  change get_cwu_schedule with (accessor CwuSchedule).
  change get_system_config with (accessor SystemConfig).
  change get_user_corrections with (accessor UserCorrections).
  destruct (accessor_served EnergyProfiles env s) as (ep & E1 & Hep).
  unfold bind at 1. rewrite E1.
  destruct (accessor_served CwuSchedule env (served EnergyProfiles env s)) as (cs & E2 & _).
  unfold bind at 1. rewrite E2.
  destruct (accessor_served SystemConfig env
              (served CwuSchedule env (served EnergyProfiles env s))) as (sc & E3 & _).
  unfold bind at 1. rewrite E3.
  destruct (accessor_served UserCorrections env
              (served SystemConfig env (served CwuSchedule env (served EnergyProfiles env s))))
    as (uc & E4 & _).
  unfold bind at 1. rewrite E4.
  destruct (served_all env s) as [l0 ->].
  simpl slot in Hep.
  unfold get_config_status. run_monad.
  cbn [_config_cache log self config_data set_config_data].
  rewrite !dict_get_default_head.
  destruct (truthy ep) eqn:Tep.
  - destruct ep as [| b | z | q | str | lst | doc];
      try (do 2 eexists; split; [cbn; rewrite <- app_assoc; reflexivity |];
           split; [now left |]; intro T; rewrite <- (Hep T); split; reflexivity).
    cbn [py_get]. unfold dict_get_default at 1.
    destruct (dict_get doc "energy_profiles") as [x |] eqn:Ex.
    + destruct x as [| b | z | q | str | lst | profiles];
        try (do 2 eexists; split; [cbn; rewrite <- app_assoc; reflexivity |];
             split; [now left |]; intro T; rewrite <- (Hep T); cbn; rewrite Ex;
             split; reflexivity).
      do 2 eexists. split; [cbn; rewrite <- app_assoc; reflexivity |].
      split; [now right |]. intro T. rewrite <- (Hep T). cbn. rewrite Ex.
      split; discriminate.
    + do 2 eexists. split; [cbn; rewrite <- app_assoc; reflexivity |].
      split; [now right |]. intro T. rewrite <- (Hep T). cbn. rewrite Ex.
      split; discriminate.
  - exists [ ("energy_profiles", ep); ("cwu_schedule", cs); ("system_config", sc);
             ("user_corrections", uc);
             ("config_status", JDict
                [ ("last_load_time", last_load_time
                     (if all_cached (_config_cache s) then _config_cache s
                      else reloaded_cache env (_config_cache s)));
                  ("files_loaded", JDict
                     [ ("energy_profiles", JBool (is_not_none (energy_profiles
                          (if all_cached (_config_cache s) then _config_cache s
                           else reloaded_cache env (_config_cache s)))));
                       ("cwu_schedule", JBool (is_not_none (cwu_schedule
                          (if all_cached (_config_cache s) then _config_cache s
                           else reloaded_cache env (_config_cache s)))));
                       ("system_config", JBool (is_not_none (system_config
                          (if all_cached (_config_cache s) then _config_cache s
                           else reloaded_cache env (_config_cache s)))));
                       ("user_corrections", JBool (is_not_none (user_corrections
                          (if all_cached (_config_cache s) then _config_cache s
                           else reloaded_cache env (_config_cache s))))) ]) ]) ], l0.
    split; [reflexivity |]. split; [now right |].
    intro T. rewrite <- (Hep T) in T. congruence.
Qed.

(** X9.  [_load_config_data] never raises, whatever the files and the
    cache hold: of the manager it assigns [config_data] only, and the view
    it leaves is either empty or has exactly the five keys of lines 41-47,
    in that order. *)
Theorem load_config_data_never_raises (env : Env) (s : State) :
  exists s',
    _load_config_data env s = (Ok tt, s')
    /\ same_but_config (self s) (self s')
    /\ (config_data (self s') = [] \/ dict_keys (config_data (self s')) = view_keys).
Proof.
  destruct (load_config_data_effect env s) as (cfg & l & E & Hk & _).
  eexists. split; [exact E |]. split.
  - repeat split.
  - exact Hk.
Qed.

(** X10.  With the energy-profiles document cached: [_load_config_data]
    resets the whole view to the empty dict exactly when that document is
    not an object, or its [energy_profiles] entry is present and not an
    object; the three other documents are then dropped from the view as
    well, although nothing is wrong with them. *)
Theorem malformed_profiles_wipe_view (env : Env) (s : State) :
  truthy (energy_profiles (_config_cache s)) = true ->
  (config_data (self (snd (_load_config_data env s))) = [] <->
   profiles_section_ok (energy_profiles (_config_cache s)) = false).
Proof.
  intro T. destruct (load_config_data_effect env s) as (cfg & l & -> & _ & H).
  exact (H T).
Qed.

Lemma malformed_profiles_wipe_view_witness :
  config_data (self (snd (_load_config_data env_all_present
                            (state_with_profiles (JList [JInt 1]))))) = [].
Proof.
  apply (malformed_profiles_wipe_view env_all_present (state_with_profiles (JList [JInt 1]))
           eq_refl).
  reflexivity.
Defined.

Lemma refresh_data_state (env : Env) (s : State) :
  exists e, refresh_data env s = (Raise e, snd (_load_config_data env s)).
Proof.
  unfold refresh_data, bind.
  destruct (load_config_data_effect env s) as (cfg & l & -> & _). cbn [snd].
  match goal with |- context [_update_system_status env ?s1] =>
    destruct (update_system_status_raises env s1) as [e ->] end.
  now exists e.
Qed.

(** X11.  What [refresh_data] does to the cache: nothing when all four
    documents are cached; otherwise what one call of [reload_all_configs]
    does, however many of the slots were empty.  So a second refresh in the
    same environment changes the cache no further. *)
Theorem refresh_data_cache (env : Env) (s : State) :
  _config_cache (snd (refresh_data env s))
  = (if all_cached (_config_cache s) then _config_cache s
     else reloaded_cache env (_config_cache s))
  /\ _config_cache (snd (refresh_data env (snd (refresh_data env s))))
     = _config_cache (snd (refresh_data env s)).
Proof.
  assert (C : forall s0, _config_cache (snd (refresh_data env s0))
              = (if all_cached (_config_cache s0) then _config_cache s0
                 else reloaded_cache env (_config_cache s0))).
  { intro s0. destruct (refresh_data_state env s0) as [e ->]. cbn [snd].
    destruct (load_config_data_effect env s0) as (cfg & l & -> & _). reflexivity. }
  split; [apply C |].
  rewrite (C (snd (refresh_data env s))), (C s).
  destruct (all_cached (_config_cache s)) eqn:A.
  - now rewrite A.
  - rewrite reloaded_cache_idem.
    now destruct (all_cached (reloaded_cache env (_config_cache s))).
Qed.

Lemma weekday_type_range (dt : datetime) :
  weekday_type dt = "roboczy" \/ weekday_type dt = "sobota"
  \/ weekday_type dt = "niedziela/święto".
Proof.
  unfold weekday_type.
  destruct (weekday dt <? 5); [now left |].
  destruct (weekday dt =? 5); [right; now left | right; now right].
Qed.

(** X12.  Whenever [_get_day_type] returns, it returns one of the three
    day types [roboczy], [sobota], [niedziela/święto], and the state is as
    it was. *)
Theorem get_day_type_range (dt : datetime) (env : Env) (s : State) (r : string) :
  fst (_get_day_type dt env s) = Ok r ->
  (r = "roboczy" \/ r = "sobota" \/ r = "niedziela/święto")
  /\ snd (_get_day_type dt env s) = s.
Proof.
  intro H. split; [| apply get_day_type_reads_only].
  revert H. unfold _get_day_type, get_if_truthy. run_monad.
  repeat match goal with
         | |- context [if truthy ?v then _ else _] => destruct (truthy v)
         | |- context [match py_get ?a ?b ?c with _ => _ end] => destruct (py_get a b c)
         | |- context [match py_in ?a ?b with _ => _ end] => destruct (py_in a b) as [[|] |]
         end;
    cbn [fst]; intros [= <-]; try (right; now right); apply weekday_type_range.
Qed.

Lemma get_day_type_range_witness :
  ("sobota" = "roboczy" \/ "sobota" = "sobota" \/ "sobota" = "niedziela/święto")
  /\ snd (_get_day_type (mk_datetime 2024 1 6 10 0 0 0) env_no_files
            (state_with_config config_with_calendar))
     = state_with_config config_with_calendar.
Proof.
  apply (get_day_type_range (mk_datetime 2024 1 6 10 0 0 0) env_no_files
           (state_with_config config_with_calendar) "sobota").
  reflexivity.
Defined.

Lemma py_get_not_dict (v : json) (k : string) (dflt : json) :
  is_dict v = false -> py_get v k dflt = Raise (AttributeError "get").
Proof. destruct v; try reflexivity. discriminate. Qed.

Lemma py_in_not_iterable (x : string) (v : json) :
  is_iterable v = false -> py_in x v = Raise TypeError.
Proof. destruct v; try reflexivity; discriminate. Qed.

(** The first lines of [_get_day_type] when [calendar] is present. *)
Lemma get_day_type_calendar (dt : datetime) (env : Env) (s : State)
    (sc : pydict) (cal : json) :
  dict_get (config_data (self s)) "system_config" = Some (JDict sc) ->
  dict_get sc "calendar" = Some cal ->
  _get_day_type dt env s =
  match py_get cal "fixed_holidays" (JList []) with
  | Raise e => (Raise e, s)
  | Ok fixed_holidays =>
      match py_get cal "movable_holidays" (JList []) with
      | Raise e => (Raise e, s)
      | Ok movable_holidays =>
          match py_in (strftime_md dt) fixed_holidays with
          | Raise e => (Raise e, s)
          | Ok true => (Ok "niedziela/święto", s)
          | Ok false =>
              match py_in (strftime_Ymd dt) movable_holidays with
              | Raise e => (Raise e, s)
              | Ok true => (Ok "niedziela/święto", s)
              | Ok false => (Ok (weekday_type dt), s)
              end
          end
      end
  end.
Proof.
  intros Hsc Hcal.
  assert (E1 : dict_get_default (config_data (self s)) "system_config" (JDict []) = JDict sc)
    by (unfold dict_get_default; now rewrite Hsc).
  assert (E2 : dict_get_default sc "calendar" (JDict []) = cal)
    by (unfold dict_get_default; now rewrite Hcal).
  assert (T : truthy (JDict sc) = true) by (destruct sc; [discriminate | reflexivity]).
  unfold _get_day_type, get_if_truthy. run_monad.
  rewrite E1, T. cbn [py_get]. rewrite E2.
  destruct (py_get cal "fixed_holidays" (JList [])) as [fh |]; [| reflexivity].
  destruct (py_get cal "movable_holidays" (JList [])) as [mh |]; [| reflexivity].
  destruct (py_in (strftime_md dt) fh) as [[|] |]; try reflexivity.
  destruct (py_in (strftime_Ymd dt) mh) as [[|] |]; reflexivity.
Qed.

(** X13.  A [calendar] entry that is present and is not an object (for
    instance [null]) makes [_get_day_type] raise [AttributeError] at every
    date; a [fixed_holidays] entry that is present and is neither a list,
    an object nor a string makes it raise [TypeError] at every date. *)
Theorem get_day_type_bad_calendar (dt : datetime) (env : Env) (s : State) (sc : pydict) :
  dict_get (config_data (self s)) "system_config" = Some (JDict sc) ->
  (forall cal,
     dict_get sc "calendar" = Some cal -> is_dict cal = false ->
     _get_day_type dt env s = (Raise (AttributeError "get"), s))
  /\ (forall cal fixed,
        dict_get sc "calendar" = Some (JDict cal) ->
        dict_get cal "fixed_holidays" = Some fixed -> is_iterable fixed = false ->
        _get_day_type dt env s = (Raise TypeError, s)).
Proof.
  intro Hsc. split.
  - intros cal Hcal Hd.
    rewrite (get_day_type_calendar dt env s sc cal Hsc Hcal).
    now rewrite py_get_not_dict.
  - intros cal fixed Hcal Hf Hi.
    rewrite (get_day_type_calendar dt env s sc (JDict cal) Hsc Hcal).
    cbn [py_get]. unfold dict_get_default at 1. rewrite Hf.
    now rewrite py_in_not_iterable.
Qed.

Lemma get_day_type_bad_calendar_witness :
  _get_day_type (tuesday_at 10) env_no_files
    (state_with_config [("system_config", JDict [("calendar", JNull)])])
  = (Raise (AttributeError "get"),
     state_with_config [("system_config", JDict [("calendar", JNull)])])
  /\ _get_day_type (tuesday_at 10) env_no_files
       (state_with_config
          [("system_config", JDict [("calendar", JDict [("fixed_holidays", JNull)])])])
     = (Raise TypeError,
        state_with_config
          [("system_config", JDict [("calendar", JDict [("fixed_holidays", JNull)])])]).
Proof.
  split.
  - apply (proj1 (get_day_type_bad_calendar (tuesday_at 10) env_no_files
                    (state_with_config [("system_config", JDict [("calendar", JNull)])])
                    [("calendar", JNull)] eq_refl) JNull); reflexivity.
  - apply (proj2 (get_day_type_bad_calendar (tuesday_at 10) env_no_files
                    (state_with_config
                       [("system_config",
                         JDict [("calendar", JDict [("fixed_holidays", JNull)])])])
                    [("calendar", JDict [("fixed_holidays", JNull)])] eq_refl)
             [("fixed_holidays", JNull)] JNull); reflexivity.
Defined.

(** X14.  The test of line 109 stops at the first list: with
    [fixed_holidays] a list and [movable_holidays] a value that cannot be
    searched (a number, [null], a boolean), a date of the fixed list is
    still classified [niedziela/święto], and every other date raises
    [TypeError]. *)
Theorem fixed_holiday_short_circuit (dt : datetime) (env : Env) (s : State)
    (sc cal : pydict) (fh : list json) (movable : json) :
  dict_get (config_data (self s)) "system_config" = Some (JDict sc) ->
  dict_get sc "calendar" = Some (JDict cal) ->
  dict_get_default cal "fixed_holidays" (JList []) = JList fh ->
  dict_get cal "movable_holidays" = Some movable ->
  is_iterable movable = false ->
  (In (JStr (strftime_md dt)) fh -> _get_day_type dt env s = (Ok "niedziela/święto", s))
  /\ (~ In (JStr (strftime_md dt)) fh -> _get_day_type dt env s = (Raise TypeError, s)).
Proof.
  intros Hsc Hcal Hfh Hm Hi.
  rewrite (get_day_type_calendar dt env s sc (JDict cal) Hsc Hcal).
  cbn [py_get]. rewrite Hfh. unfold dict_get_default. rewrite Hm. cbn [py_in].
  split; intro H.
  - apply existsb_eq_str in H. now rewrite H.
  - destruct (existsb (eq_str (strftime_md dt)) fh) eqn:E.
    + apply existsb_eq_str in E. contradiction.
    + now rewrite py_in_not_iterable.
Qed.

Lemma fixed_holiday_short_circuit_witness :
  let s := state_with_config
             [("system_config", JDict [("calendar", JDict
                 [("fixed_holidays", JList [JStr "01-01"]); ("movable_holidays", JNull)])])] in
  _get_day_type (mk_datetime 2024 1 1 10 0 0 0) env_no_files s = (Ok "niedziela/święto", s)
  /\ _get_day_type (tuesday_at 10) env_no_files s = (Raise TypeError, s).
Proof.
  intro s. split.
  - apply (proj1 (fixed_holiday_short_circuit (mk_datetime 2024 1 1 10 0 0 0) env_no_files s
                    _ _ [JStr "01-01"] JNull eq_refl eq_refl eq_refl eq_refl eq_refl)).
    simpl. now left.
  - apply (proj2 (fixed_holiday_short_circuit (tuesday_at 10) env_no_files s
                    _ _ [JStr "01-01"] JNull eq_refl eq_refl eq_refl eq_refl eq_refl)).
    simpl. intros [H | []]. discriminate H.
Defined.

(** ** Sequences of toggles *)

Lemma after_toggles_cons (b : bool) (env : Env) (calls : list (bool * Env)) (s : State) :
  after_toggles ((b, env) :: calls) s = after_toggles calls (toggled b s).
Proof.
  unfold after_toggles. simpl.
  destruct (toggle_cwu_boiler_eq b env s) as [e ->]. reflexivity.
Qed.

(** X19.  After any sequence of calls of [toggle_cwu_boiler], whatever
    they raise: [heaters_locked] is [True] if some call enabled the boiler,
    and is what it was before the sequence otherwise, so no sequence of
    toggles unlocks the heaters; [cwu_boiler_enabled] is the argument of the
    last call; the status snapshot is the one from before the sequence. *)
Theorem heaters_after_toggles (calls : list (bool * Env)) :
  forall s,
    heaters_locked (self (after_toggles calls s))
    = (if existsb fst calls then Some true else heaters_locked (self s))
    /\ cwu_boiler_enabled (self (after_toggles calls s))
       = match rev calls with
         | [] => cwu_boiler_enabled (self s)
         | (b, _) :: _ => Some b
         end
    /\ system_status (self (after_toggles calls s)) = system_status (self s).
Proof.
  induction calls as [| [b env] calls IH]; intro s.
  - repeat split.
  - rewrite after_toggles_cons.
    destruct (IH (toggled b s)) as (H1 & H2 & H3).
    rewrite H1, H2, H3. cbn [existsb fst orb rev].
    split; [| split].
    + destruct b; cbn [orb toggled self heaters_locked]; [| reflexivity].
      now destruct (existsb fst calls).
    + destruct (rev calls) as [| [b' env'] r]; reflexivity.
    + reflexivity.
Qed.
